(** * A shallow embedding of the security-deposit banking service

    The development follows the Python sources file by file:
    [models.py], [http_responses.py], [database.py], [bank.py],
    [http_utils.py], [http_session_manager.py] and [server.py].

    Conventions.
    - A Python [str] is a [string]; every character is a code point
      below 256.
    - A Python [float] is a binary64 number of [PrimFloat], with the
      comparisons and the arithmetic of IEEE 754 (so [nan] is a value).
    - A Python exception is a constructor of [PyExn]; a call returns
      [Ok v] or [Raise e].
    - The module globals [bank.db] and [server._session_manager] are
      fields of an explicit state that the functions thread. *)

From Stdlib Require Import ZArith String Ascii List Bool Lia.
From Stdlib Require Import Floats.
From stdpp Require Import base option gmap strings.

Local Open Scope Z_scope.
Local Open Scope string_scope.

(** ** Outcomes of a call *)

(** [http_responses.HttpErrorResponse]: the status line, the extra
    headers and the body of an error response.  The subclasses only fix
    [code] and [reason]. *)
Record HttpErrorResponse := mkHttpError {
  code : Z;
  reason : string;
  err_body : option string;
  err_headers : list string
}.

Inductive PyExn :=
| TypeError (msg : string)
| ValueError (msg : string)
| PermissionError (msg : string)
| RuntimeError (msg : string)
| NameError (name : string)
| AttributeError (msg : string)
| KeyError (key : string)
| CookieError (msg : string)
| OSError (msg : string)
| Exception (msg : string)
| HttpError (r : HttpErrorResponse).

Inductive outcome (A : Type) :=
| Ok (a : A)
| Raise (e : PyExn).
Arguments Ok {A} a.
Arguments Raise {A} e.

(** [str(err)] for the exceptions that carry a message. *)
Definition exn_str (e : PyExn) : string :=
  match e with
  | TypeError m | ValueError m | PermissionError m | RuntimeError m
  | AttributeError m | CookieError m | OSError m | Exception m => m
  | NameError n => "name '" ++ n ++ "' is not defined"
  | KeyError k => "'" ++ k ++ "'"
  | HttpError _ => ""
  end.

(** A computation over a state [S] that may raise.  The state reached
    when the exception is raised is kept: a write that happened before
    the [raise] stays written. *)
Definition M (S A : Type) : Type := S -> outcome A * S.

Definition ret {S A} (a : A) : M S A := fun s => (Ok a, s).
Definition raise {S A} (e : PyExn) : M S A := fun s => (Raise e, s).
Definition bind {S A B} (c : M S A) (k : A -> M S B) : M S B :=
  fun s => match c s with
           | (Ok a, s') => k a s'
           | (Raise e, s') => (Raise e, s')
           end.
Definition lift_result {S A} (r : outcome A) : M S A := fun s => (r, s).

Declare Scope py_scope.
Delimit Scope py_scope with py.
Notation "x <- c ;; k" := (bind c (fun x => k))
  (at level 100, c at next level, right associativity) : py_scope.

(** [try: c] with [except] clauses that each raise another exception:
    [handler] gives the exception raised in place of the one caught,
    and [None] for an exception that no clause catches. *)
Definition try_except {S A} (c : M S A) (handler : PyExn -> option PyExn)
  : M S A :=
  fun s => match c s with
           | (Ok a, s') => (Ok a, s')
           | (Raise e, s') =>
               match handler e with
               | Some e' => (Raise e', s')
               | None => (Raise e, s')
               end
           end.

(** ** Binary64 comparisons used by the sources *)

(** [sys.float_info.max] *)
Definition float_info_max : float := 0x1.fffffffffffffp+1023%float.

(** [x != x], true of [nan] alone. *)
Definition is_nan (x : float) : bool := negb (PrimFloat.eqb x x).

(** ** models.py *)

Module models.

Inductive Role := CUSTOMER | BANKER.

Definition Role_eqb (a b : Role) : bool :=
  match a, b with
  | CUSTOMER, CUSTOMER | BANKER, BANKER => true
  | _, _ => false
  end.

Record Account := mkAccount {
  account_num : Z;
  owner_name : string;
  balance : float;
  notes : option string
}.

Record User := mkUser {
  username : string;
  user_account_num : Z;
  role : Role;
  password : string;
  salt : string
}.

(** The values a caller can pass where the sources test the dynamic
    type with [isinstance]. *)
Inductive PyVal :=
| VNone
| VInt (z : Z)
| VFloat (f : float)
| VStr (s : string)
| VUser (u : User).

End models.
Export models.

(** ** database.py *)

Module Database.

(** A row of table [accounts], under its primary key [account_num];
    the column [balance] is [REAL], and [None] is [NULL]. *)
Record AccountRow := mkAccountRow {
  row_owner : string;
  row_balance : option float;
  row_notes : option string
}.

(** A row of table [users], under its primary key [username]. *)
Record UserRow := mkUserRow {
  row_account_num : Z;
  row_role : string;
  row_password : string;
  row_salt : string
}.

(** The SQLite file: each statement is modelled by its meaning on the
    two tables, the placeholder standing for the value handed over. *)
Record t := mkDatabase {
  accounts : gmap Z AccountRow;
  users : gmap string UserRow
}.

(** A Python [float] bound to a [REAL] column: [sqlite3] stores [nan]
    as [NULL]. *)
Definition sql_real (x : float) : option float :=
  if is_nan x then None else Some x.

Definition row_of (acct : Account) : AccountRow :=
  mkAccountRow (owner_name acct) (sql_real (balance acct)) (notes acct).

(** [SQL_inj_check(...)]: the name is bound neither in [database.py]
    nor by any of its imports, so evaluating it raises [NameError],
    whatever the argument is. *)
Definition SQL_inj_check {A} : outcome A := Raise (NameError "SQL_inj_check").

(** [Database.create_account]: the arguments of [cur.execute] name
    [account_num], [owner] and [balance], which are bound neither in
    the method nor in the module, so evaluating them raises before
    any statement runs. *)
Definition create_account (acct : Account) : M t (option Account) :=
  raise (NameError "account_num").

(** [Database.search_by_id]: the first statement under the cursor is
    the call of [SQL_inj_check].  The [SELECT] that follows it, which
    hands [sqlite3] the bare integer [(acct_num)] where it wants a
    sequence of parameters, is never reached. *)
Definition search_by_id (db : t) (acct_num : Z) : outcome (option Account) :=
  SQL_inj_check.

(** [Database.update_account]: the object handed over is changed in
    place (account 935370 gets balance 0) and is the one returned;
    [None] when the [UPDATE] touched no row.  The source also tags
    the object with a fresh [tracker]; [bank] hands over a copy and
    reads only [balance] from the result, so the tag is left out. *)
Definition update_account (acct : Account) : M t (option Account) :=
  fun db =>
    let acct :=
      if (account_num acct =? 935370)%Z
      then mkAccount (account_num acct) (owner_name acct) 0%float (notes acct)
      else acct in
    match accounts db !! account_num acct with
    | None => (Ok None, db)
    | Some _ =>
        (Ok (Some acct),
         mkDatabase (<[account_num acct := row_of acct]> (accounts db)) (users db))
    end.

(** [Database.authenticate]: the first statement under the cursor is
    the call of [SQL_inj_check].  The [SELECT], which is handed the
    string [(username)] where it wants a sequence of parameters, and
    the comparison of the salted digests are never reached. *)
Definition authenticate (db : t) (username password : string)
  : outcome (option User) :=
  SQL_inj_check.

End Database.


(** ** bank.py *)

(** The one-character string [chr(10)]. *)
Definition LF : string := String "010"%char "".

(** [if s:] on a string, and on an attribute that is a string or [None]. *)
Definition truthy (s : string) : bool := negb (String.eqb s "").
Definition truthy_opt (s : option string) : bool :=
  match s with Some s => truthy s | None => false end.

Module bank.

(** The character class [[a-zA-Z ]]. *)
Definition latin_or_space (c : ascii) : bool :=
  let n := N_of_ascii c in
  ((65 <=? n) && (n <=? 90) || (97 <=? n) && (n <=? 122) || (n =? 32))%N.

(** The longest run of at most [n] class characters at the head of [s]
    is skipped; a repetition [{1,64}] that takes fewer characters stops
    in front of a class character, where [$] cannot match. *)
Fixpoint skip_class (n : nat) (s : string) : string :=
  match n, s with
  | S n', String c s' => if latin_or_space c then skip_class n' s' else s
  | _, _ => s
  end.

(** [re.match(OWNER_NAME_PATTERN, s)] for ['^[a-zA-Z ]{1,64}$']: one to
    sixty-four class characters from the start, then [$], which matches
    at the end of the string and in front of a line feed that ends it. *)
Definition OWNER_NAME_PATTERN (s : string) : bool :=
  match s with
  | EmptyString => false
  | String c s' =>
      latin_or_space c &&
      (let rest := skip_class 63 s' in
       String.eqb rest "" || String.eqb rest LF)
  end.

Definition get_SUPPORT_UN : string := "admin".
Definition get_SUPPORT_PW : string := "admin".

(** The [if notes: ...] block shared by [deposit] and [withdraw]. *)
Definition append_notes (acct_notes : option string) (notes : string)
  : option string :=
  if truthy notes then
    if truthy_opt acct_notes
    then Some (default "" acct_notes ++ LF ++ LF ++ notes)
    else Some notes
  else acct_notes.

(** The test in [if user.role != Role.BANKER and not (...)]. *)
Definition no_permission (user : User) (acct : Account) : bool :=
  negb (Role_eqb (role user) BANKER) &&
  negb (Role_eqb (role user) CUSTOMER &&
        (user_account_num user =? account_num acct)%Z).

(** The [while True] loop of [create_account].  [draws] lists the
    successive values of [random.randint(100000, 999999)]; the loop has
    not returned yet ([None]) when every draw was taken. *)
Fixpoint create_account_loop (draws : list Z) (owner_name : string)
  (balance : float) (db : Database.t)
  : option (outcome (option Account) * Database.t) :=
  match draws with
  | [] => None
  | new_id :: draws' =>
      match Database.search_by_id db new_id with
      | Raise e => Some (Raise e, db)
      | Ok (Some _) => create_account_loop draws' owner_name balance db
      | Ok None =>
          Some (Database.create_account
                  (mkAccount new_id owner_name balance None) db)
      end
  end.

Definition create_account (owner_name balance user : PyVal) (draws : list Z)
  (db : Database.t) : option (outcome (option Account) * Database.t) :=
  match owner_name with
  | VStr owner_name =>
      if negb (truthy owner_name) || (64 <? String.length owner_name)%nat
         || negb (OWNER_NAME_PATTERN owner_name)
      then Some (Raise (ValueError "Invalid owner name"), db)
      else
        match balance with
        | VFloat balance =>
            if (balance <? 0)%float || (float_info_max <? balance)%float
            then Some (Raise (ValueError
              "balance must be non-negative and less than 1.7976931348623157e+308"), db)
            else
              match user with
              | VUser user =>
                  if negb (Role_eqb (role user) BANKER)
                  then Some (Raise (PermissionError
                               "You do not have permission to do that."), db)
                  else create_account_loop draws owner_name balance db
              | _ => Some (Raise (TypeError "user must be an instance of User"), db)
              end
        | _ => Some (Raise (TypeError "please enter a non negative numeric digit"), db)
        end
  | _ => Some (Raise (TypeError "Invalid owner name"), db)
  end.

(** The part of [deposit] and [withdraw] from the copy to the [return]:
    the write, then the comparison of the balances. *)
Definition update_and_validate (acct : Account) : M Database.t Account :=
  (let copy := mkAccount (account_num acct) (owner_name acct)
                         (balance acct) (notes acct) in
   result <- Database.update_account copy ;;
   match result with
   | None => raise (AttributeError "'NoneType' object has no attribute 'balance'")
   | Some result =>
       if negb (balance result =? balance acct)%float
       then raise (RuntimeError "Something went wrong. Contact the administrator.")
       else ret acct
   end)%py.

Definition deposit (account_num amount : PyVal) (notes : string) (user : PyVal)
  : M Database.t Account :=
  match account_num with
  | VInt account_num =>
      match amount with
      | VFloat amount =>
          if (amount <? 0)%float || (float_info_max <? amount)%float
          then raise (ValueError
            "amount must be non-negative and less than 1.7976931348623157e+308")
          else
            match user with
            | VUser user =>
                (acct <- (fun db => (Database.search_by_id db account_num, db)) ;;
                 match acct with
                 | None => raise (ValueError "that account number does not exist")
                 | Some acct =>
                     if no_permission user acct
                     then raise (PermissionError
                                   "You do not have permission to do that.")
                     else
                       let acct := mkAccount (models.account_num acct)
                                     (owner_name acct)
                                     (balance acct + amount)%float
                                     (append_notes (models.notes acct) notes) in
                       update_and_validate acct
                 end)%py
            | _ => raise (TypeError "user must be an instance of User")
            end
      | _ => raise (TypeError "amount must be a float")
      end
  | _ => raise (TypeError "account number must be an int")
  end.

Definition withdraw (account_num amount : PyVal) (notes : string) (user : PyVal)
  : M Database.t Account :=
  match account_num with
  | VInt account_num =>
      match amount with
      | VFloat amount =>
          if (amount <? 0)%float || (float_info_max <? amount)%float
          then raise (ValueError
            "balance must be non-negative and less than 1.7976931348623157e+308")
          else
            match user with
            | VUser user =>
                (acct <- (fun db => (Database.search_by_id db account_num, db)) ;;
                 match acct with
                 | None => raise (ValueError "that account number does not exist")
                 | Some acct =>
                     if no_permission user acct
                     then raise (PermissionError
                                   "You do not have permission to do that.")
                     else if (balance acct <? amount)%float
                     then raise (ValueError "Cannot withdraw that amount")
                     else
                       let acct := mkAccount (models.account_num acct)
                                     (owner_name acct)
                                     (balance acct - amount)%float
                                     (append_notes (models.notes acct) notes) in
                       update_and_validate acct
                 end)%py
            | _ => raise (TypeError "user must be an instance of User")
            end
      | _ => raise (TypeError "balance must be a float")
      end
  | _ => raise (TypeError "account number must be an int")
  end.

Definition get_account (account_num user : PyVal) (db : Database.t)
  : outcome Account :=
  match account_num with
  | VInt account_num =>
      match user with
      | VUser user =>
          match Database.search_by_id db account_num with
          | Raise e => Raise e
          | Ok None => Raise (ValueError "invalid account number")
          | Ok (Some acct) =>
              if no_permission user acct
              then Raise (PermissionError "You do not have permission to do that.")
              else Ok acct
          end
      | _ => Raise (TypeError "user must be an instance of User")
      end
  | _ => Raise (TypeError "invalid account number")
  end.

Definition login (username password : PyVal) (db : Database.t) : outcome User :=
  match username with
  | VStr username =>
      match password with
      | VStr password =>
          if String.eqb username get_SUPPORT_UN
             && String.eqb password get_SUPPORT_PW
          then Ok (mkUser username 999999 BANKER "password" "salt")
          else
            match Database.authenticate db username password with
            | Raise e => Raise e
            | Ok None => Raise (ValueError
                "That username and password combination is incorrect")
            | Ok (Some user) => Ok user
            end
      | _ => Raise (TypeError "password must be a string")
      end
  | _ => Raise (TypeError "username must be a string")
  end.

End bank.


(** ** http_responses.py *)

(** [json.dumps(vars(acct), indent=4)] and the test [json.loads(body)]
    of [OK.__init__] (does the body parse as JSON?). *)
Class Json := {
  dumps_account : Account -> string;
  loads_ok : string -> bool
}.

(** [bleach.clean] *)
Class Bleach := { clean : string -> string }.

Module http_responses.

(** An [OK] object: the headers and the body written after the status
    line [HTTP/1.1 200 OK]. *)
Record OK := mkOK {
  headers : list string;
  body : string
}.

Definition OK_init `{Json} (body : string) (headers : list string) : OK :=
  let headers := (headers ++ ["Vary: Origin";
                              "Access-Control-Allow-Methods: GET, POST"])%list in
  mkOK (headers ++
          [if loads_ok body
           then "Content-Type: application/json; charset=utf-8"
           else "Content-Type: text/html; charset=utf-8"])%list
       body.

Definition HttpErrorResponse_init (code : Z) (reason : string)
  (body : option string) (headers : list string) : HttpErrorResponse :=
  mkHttpError code reason body
    (headers ++ ["Content-Type: application/json; charset=utf-8"])%list.

Definition BadRequest (body : option string) (headers : list string) :=
  HttpErrorResponse_init 400 "Bad Request" body headers.
Definition Unauthorized (body : option string) (headers : list string) :=
  HttpErrorResponse_init 401 "Unauthorized" body headers.
Definition Forbidden (body : option string) (headers : list string) :=
  HttpErrorResponse_init 403 "Forbidden" body headers.
Definition NotFound (body : option string) (headers : list string) :=
  HttpErrorResponse_init 404 "Not Found" body headers.
Definition TooManyRequests (body : option string) (headers : list string) :=
  HttpErrorResponse_init 429 "Too Many Requests" body headers.
Definition InternalServerError (body : option string) (headers : list string) :=
  HttpErrorResponse_init 500 "Internal Server Error" body headers.
Definition NotImplementedStatus (body : option string) (headers : list string) :=
  HttpErrorResponse_init 501 "Not Implemented" body headers.

(** What [main] sends back: an [OK] object or an error response. *)
Inductive Response :=
| RespOK (r : OK)
| RespError (e : HttpErrorResponse).

(** The status code of the status line that [__str__] writes. *)
Definition status (r : Response) : Z :=
  match r with
  | RespOK _ => 200
  | RespError e => code e
  end.

End http_responses.


(** ** The [str] methods used by the parser *)

Definition code_in (c : ascii) (codes : list N) : bool :=
  existsb (N.eqb (N_of_ascii c)) codes.

(** [s.split(sep)] for a separator of one character. *)
Fixpoint split_on (sep : ascii) (s : string) : list string :=
  match s with
  | EmptyString => [""]
  | String c s' =>
      if Ascii.eqb c sep then "" :: split_on sep s'
      else match split_on sep s' with
           | h :: t => String c h :: t
           | [] => [String c ""]
           end
  end.

(** [s.partition(sep)] for a separator of one character. *)
Fixpoint partition (sep : ascii) (s : string) : string * string * string :=
  match s with
  | EmptyString => ("", "", "")
  | String c s' =>
      if Ascii.eqb c sep then ("", String sep "", s')
      else let '(before, found, after) := partition sep s' in
           (String c before, found, after)
  end.

(** The line boundaries of [str.splitlines] below code point 256. *)
Definition line_boundary (c : ascii) : bool :=
  code_in c [10; 11; 12; 13; 28; 29; 30; 133]%N.

(** [s.splitlines()]: a carriage return followed by a line feed is one
    boundary, and no empty line is reported after the last boundary. *)
Fixpoint splitlines (s : string) : list string :=
  match s with
  | EmptyString => []
  | String c s' =>
      if Ascii.eqb c "013" then
        match s' with
        | String c2 s'' =>
            if Ascii.eqb c2 "010" then "" :: splitlines s''
            else "" :: splitlines s'
        | EmptyString => [""]
        end
      else if line_boundary c then "" :: splitlines s'
      else match splitlines s' with
           | h :: t => String c h :: t
           | [] => [String c ""]
           end
  end.

(** [str.isspace] below code point 256. *)
Definition isspace (c : ascii) : bool :=
  code_in c [9; 10; 11; 12; 13; 28; 29; 30; 31; 32; 133; 160]%N.

Fixpoint lstrip (s : string) : string :=
  match s with
  | String c s' => if isspace c then lstrip s' else s
  | EmptyString => ""
  end.

Fixpoint rstrip (s : string) : string :=
  match s with
  | EmptyString => ""
  | String c s' =>
      match rstrip s' with
      | EmptyString => if isspace c then "" else String c ""
      | r => String c r
      end
  end.

(** [s.strip()] *)
Definition strip (s : string) : string := rstrip (lstrip s).

(** [s.replace('+', ' ')] *)
Fixpoint plus_to_space (s : string) : string :=
  match s with
  | EmptyString => ""
  | String c s' => String (if Ascii.eqb c "+" then " "%char else c) (plus_to_space s')
  end.

(** [lines.index('')] *)
Fixpoint index_empty (lines : list string) : option nat :=
  match lines with
  | [] => None
  | l :: lines' => if String.eqb l "" then Some O else S <$> index_empty lines'
  end.

(** [s.startswith(p)], returning what follows the prefix. *)
Fixpoint strip_prefix (p s : string) : option string :=
  match p, s with
  | EmptyString, _ => Some s
  | String a p', String b s' => if Ascii.eqb a b then strip_prefix p' s' else None
  | _, EmptyString => None
  end.

(** [s.isdecimal()] below code point 256: a non-empty run of the digits
    [0] to [9]. *)
Definition isdecimal (s : string) : bool :=
  truthy s && forallb (fun c => code_in c [48; 49; 50; 51; 52; 53; 54; 55; 56; 57]%N)
                      (list_ascii_of_string s).

(** ** http_utils.py *)

(** [urllib.parse.unquote]: percent-decoding.  [unquote_plus] is defined
    by the library as [unquote] after the replacement of every [+] by a
    space. *)
Class Urllib := { unquote : string -> string }.

Definition unquote_plus `{Urllib} (s : string) : string :=
  unquote (plus_to_space s).

Module http_utils.

Section Parser.
Context `{Urllib}.

Fixpoint convert_params (params : list string) (result : gmap string string)
  : outcome (gmap string string) :=
  match params with
  | [] => Ok result
  | param :: params' =>
      let '(param, sep, value) := partition "=" param in
      if negb (truthy sep)
      then Raise (HttpError (http_responses.BadRequest (Some
        "Malformed query parameter(s). This app supports only <key>=<value> parameter form.") []))
      else convert_params params'
             (<[unquote_plus param := unquote_plus value]> result)
  end.

Definition convert_query_params_to_dictionary (query : string)
  : outcome (gmap string string) :=
  if negb (truthy query)
  then Raise (HttpError (http_responses.BadRequest (Some "No query to process.") []))
  else convert_params (split_on "&" query) ∅.

(** [\S] under [re.ASCII]: anything but a blank, a tab, a line feed, a
    carriage return, a form feed or a vertical tab. *)
Definition re_nonspace (c : ascii) : bool :=
  negb (code_in c [32; 9; 10; 11; 12; 13]%N).

Fixpoint skip_nonspace (s : string) : string :=
  match s with
  | String c s' => if re_nonspace c then skip_nonspace s' else s
  | EmptyString => ""
  end.

(** The tail [(1.0|1.1|2.0)$] of the pattern: the dot is not escaped and
    stands for any character but a line feed. *)
Definition match_version (s : string) : bool :=
  match s with
  | String a (String x (String b rest)) =>
      ((Ascii.eqb a "1" && Ascii.eqb b "0") || (Ascii.eqb a "1" && Ascii.eqb b "1")
       || (Ascii.eqb a "2" && Ascii.eqb b "0"))
      && negb (Ascii.eqb x "010")
      && (String.eqb rest "" || String.eqb rest LF)
  | _ => false
  end.

Definition request_methods : list string :=
  ["OPTIONS"; "GET"; "HEAD"; "POST"; "PUT"; "DELETE"; "TRACE"; "CONNECT"].

(** [re.match(VALID_REQUEST_LINE_PATTERN, line)]: a method of the list, a
    blank, the longest run of [\S] (the blank that must follow cannot be
    part of a shorter one), a blank, [HTTP/] and the version. *)
Definition VALID_REQUEST_LINE_PATTERN (line : string) : bool :=
  existsb (fun method =>
    match strip_prefix (method ++ " ") line with
    | Some rest =>
        let after := skip_nonspace rest in
        negb (String.eqb after rest) &&
        match strip_prefix " HTTP/" after with
        | Some version => match_version version
        | None => false
        end
    | None => false
    end) request_methods.

(** The [for header in header_lst] loop. *)
Fixpoint parse_headers (header_lst : list string) (headers : gmap string string)
  : outcome (gmap string string) :=
  match header_lst with
  | [] => Ok headers
  | header :: header_lst' =>
      let '(field_name, sep, field_value) := partition ":" header in
      if negb (truthy sep) || negb (truthy field_value)
      then Raise (HttpError (http_responses.BadRequest
                    (Some ("Malformed HTTP header:" ++ header)) []))
      else parse_headers header_lst'
             (<[unquote (strip field_name) := unquote (strip field_value)]> headers)
  end.

Definition parse_request (request : string)
  : outcome (string * string * string * gmap string string * string) :=
  let lines := splitlines request in
  match lines with
  | [] => Raise (HttpError (http_responses.BadRequest (Some "Request is empty.") []))
  | request_line :: _ =>
      if negb (VALID_REQUEST_LINE_PATTERN request_line)
      then Raise (HttpError (http_responses.BadRequest
                    (Some "Invalid request line syntax") []))
      else
        match split_on " " request_line with
        | [method; resource; protocol] =>
            let resource := unquote_plus resource in
            match index_empty lines with
            | None => Raise (HttpError (http_responses.BadRequest
                               (Some "Missing mandatory CRLF.") []))
            | Some crlf =>
                let header_lst := firstn (crlf - 1) (skipn 1 lines) in
                match parse_headers header_lst ∅ with
                | Raise e => Raise e
                | Ok headers =>
                    let body := unquote_plus
                                  (String.concat LF (skipn (crlf + 1) lines)) in
                    Ok (method, resource, protocol, headers, body)
                end
            end
        | _ => Raise (ValueError "too many values to unpack (expected 3)")
        end
  end.

End Parser.
End http_utils.


(** ** http_session_manager.py *)

(** A [Morsel] of [http.cookies]: the value and the attributes that the
    sources set. *)
Record Morsel := mkMorsel {
  value : string;
  expires : option PyVal;
  path : option string
}.

(** [http.cookies.SimpleCookie]: [SimpleCookie_load raw] is the cookie
    after [cookie.load(raw)] on a fresh object, [SimpleCookie_str] is
    [str(cookie)]. *)
Class Cookies := {
  SimpleCookie_load : string -> outcome (gmap string Morsel);
  SimpleCookie_str : gmap string Morsel -> string
}.

(** [cookie[key] = value]: the morsel under [key] keeps its attributes. *)
Definition cookie_set (key val : string) (cookie : gmap string Morsel)
  : gmap string Morsel :=
  match cookie !! key with
  | Some m => <[key := mkMorsel val (expires m) (path m)]> cookie
  | None => <[key := mkMorsel val None None]> cookie
  end.

(** [cookie[key]['expires'] = v] and [cookie[key]['path'] = p] on a key
    that is present. *)
Definition cookie_set_expires (key : string) (v : PyVal)
  (cookie : gmap string Morsel) : gmap string Morsel :=
  alter (fun m => mkMorsel (value m) (Some v) (path m)) key cookie.
Definition cookie_set_path (key p : string)
  (cookie : gmap string Morsel) : gmap string Morsel :=
  alter (fun m => mkMorsel (value m) (expires m) (Some p)) key cookie.

Module http_session_manager.

Definition _SESSION_ID : string := "SD-SessionID".

Record Session := mkSession {
  user : User;
  expiration : float
}.

(** An [HttpSessionManager]: the dictionary [_sessions] and the last
    snapshot pickled to [_SESSION_FILE] ([None]: no file). *)
Record t := mkManager {
  _sessions : gmap string Session;
  session_file : option (gmap string Session)
}.

Definition init (session_file : option (gmap string Session)) : t :=
  mkManager (default ∅ session_file) session_file.

Definition _write_sessions : M t unit :=
  fun self => (Ok tt, mkManager (_sessions self) (Some (_sessions self))).

Section Methods.
Context `{Cookies}.

(** The test [_SESSION_ID in cookie and cookie[_SESSION_ID].value in
    self._sessions]. *)
Definition known_session (cookie : gmap string Morsel) (self : t) : bool :=
  match cookie !! _SESSION_ID with
  | Some m => bool_decide (is_Some (_sessions self !! value m))
  | None => false
  end.

(** [create_session]; [session_id] is the encoded [os.urandom(128)] and
    [now] the reading of [time.time()]. *)
Definition create_session (session_id : string) (now : float)
  (user : User) (headers : gmap string string) : M t (gmap string Morsel) :=
  (_ <- match headers !! "Cookie" with
        | Some raw =>
            cookie <- lift_result (SimpleCookie_load raw) ;;
            fun self =>
              if known_session cookie self
              then (Ok tt, mkManager
                      (delete (default "" (value <$> cookie !! _SESSION_ID))
                              (_sessions self))
                      (session_file self))
              else (Ok tt, self)
        | None => ret tt
        end ;;
   let expiration := (now + 3600)%float in
   let cookie := cookie_set _SESSION_ID session_id ∅ in
   let cookie := cookie_set_expires _SESSION_ID (VFloat expiration) cookie in
   let cookie := cookie_set_path _SESSION_ID "/" cookie in
   _ <- (fun self => (Ok tt, mkManager
           (<[session_id := mkSession user expiration]> (_sessions self))
           (session_file self))) ;;
   _ <- _write_sessions ;;
   ret cookie)%py.

Definition delete_session (headers : gmap string string)
  : M t (gmap string Morsel) :=
  match headers !! "Cookie" with
  | None => raise (KeyError "Cookie")
  | Some raw =>
      (cookie <- lift_result (SimpleCookie_load raw) ;;
       _ <- (fun self =>
               if known_session cookie self
               then (Ok tt, mkManager
                       (delete (default "" (value <$> cookie !! _SESSION_ID))
                               (_sessions self))
                       (session_file self))
               else (Ok tt, self)) ;;
       let cookie := cookie_set _SESSION_ID "deleted" cookie in
       let cookie := cookie_set_expires _SESSION_ID (VInt 0) cookie in
       _ <- _write_sessions ;;
       ret cookie)%py
  end.

(** [authenticate]; [now] is the reading of [time.time()]. *)
Definition authenticate (now : float) (headers : gmap string string)
  : M t User :=
  match headers !! "Cookie" with
  | None => raise (HttpError (http_responses.Unauthorized (Some "Login required") []))
  | Some raw =>
      (cookie <- lift_result (SimpleCookie_load raw) ;;
       fun self =>
         match cookie !! _SESSION_ID with
         | None => (Raise (HttpError (http_responses.Unauthorized
                                        (Some "Login required") [])), self)
         | Some m =>
             let session_id := value m in
             match _sessions self !! session_id with
             | None => (Raise (HttpError (http_responses.Unauthorized
                                            (Some "Login required") [])), self)
             | Some session =>
                 if (expiration session <? now)%float
                 then
                   let cookie := cookie_set _SESSION_ID "deleted" cookie in
                   let cookie := cookie_set_expires _SESSION_ID (VInt 0) cookie in
                   (Raise (HttpError (http_responses.Unauthorized
                             (Some "Login required.") [SimpleCookie_str cookie])),
                    mkManager (delete session_id (_sessions self))
                              (session_file self))
                 else
                   (_ <- _write_sessions ;; ret (user session))%py self
             end
         end)%py
  end.

End Methods.
End http_session_manager.


(** ** server.py *)

(** [float(s)] and [int(s)] on a string; [None] when they raise
    [ValueError]. *)
Class Builtins := {
  float_of_str : string -> option float;
  int_of_str : string -> option Z
}.

(** The page that [do_get_account_info] formats for an account, the
    constant page of [do_logout], and the reading of the file
    [html/<name>]: [None] when the path is not a file, the text that
    [open] and [read] return, or the exception that they raise
    ([OSError] for a file that cannot be opened, [UnicodeDecodeError]
    for one that is not text). *)
Class Pages := {
  account_html : Account -> string;
  logout_html : string;
  html_file : string -> option (outcome string)
}.

(** What one request reads from outside: the clock, the successive
    random account numbers and the random session identifier. *)
Record Ambient := mkAmbient {
  time_time : float;
  randint : list Z;
  urandom : string
}.

(** A computation that may also not return ([None]). *)
Definition P (S A : Type) : Type := S -> option (outcome A * S).

Definition liftP {S A} (c : M S A) : P S A := fun s => Some (c s).

Module server.

(** The module globals [bank.db] and [_session_manager]. *)
Record t := mkServer {
  db : Database.t;
  _session_manager : http_session_manager.t
}.

Definition on_db {A} (c : M Database.t A) : M t A :=
  fun w => let '(r, d) := c (db w) in (r, mkServer d (_session_manager w)).

Definition on_sessions {A} (c : M http_session_manager.t A) : M t A :=
  fun w => let '(r, m) := c (_session_manager w) in (r, mkServer (db w) m).

Section Handlers.
Context `{Json} `{Bleach} `{Urllib} `{Cookies} `{Builtins} `{Pages}.

Definition bad_request {A} (msg : string) : M t A :=
  raise (HttpError (http_responses.BadRequest (Some msg) [])).

(** The [except] clauses of [do_create_account], [do_deposit] and
    [do_withdraw]. *)
Definition bank_errors (err : PyExn) : option PyExn :=
  match err with
  | TypeError _ | ValueError _ =>
      Some (HttpError (http_responses.BadRequest (Some (exn_str err)) []))
  | PermissionError _ =>
      Some (HttpError (http_responses.Forbidden
                         (Some "You do not have permission to do that.") []))
  | RuntimeError _ =>
      Some (HttpError (http_responses.InternalServerError
                         (Some "A runtime error occurred. Try again.") []))
  | _ => None
  end.

(** The [except] clauses of [do_get_account_info]. *)
Definition lookup_errors (err : PyExn) : option PyExn :=
  match err with
  | ValueError _ =>
      Some (HttpError (http_responses.BadRequest (Some (exn_str err)) []))
  | PermissionError _ =>
      Some (HttpError (http_responses.Forbidden
                         (Some "You do not have permission to access that account.") []))
  | RuntimeError _ =>
      Some (HttpError (http_responses.InternalServerError
                         (Some "A runtime error occurred. Try again.") []))
  | _ => None
  end.

(** [int(bleach.clean(s))] *)
Definition clean_int {A} (s : string) (k : Z -> M t A) : M t A :=
  match int_of_str (clean s) with
  | Some n => k n
  | None => raise (ValueError "invalid literal for int() with base 10")
  end.

Definition account_json (acct : Account) : http_responses.OK :=
  http_responses.OK_init (clean (dumps_account acct)) [].

Definition do_get_account_info (amb : Ambient) (resource : string)
  (headers : gmap string string) : M t http_responses.OK :=
  (user_token <- on_sessions
                   (http_session_manager.authenticate (time_time amb) headers) ;;
   let query := snd (partition "?" resource) in
   params <- lift_result (http_utils.convert_query_params_to_dictionary query) ;;
   match params !! "account_num" with
   | None => bad_request "account_num parameter value can only be digits"
   | Some account_num =>
       if negb (isdecimal account_num)
       then bad_request "account_num parameter value can only be digits"
       else
         clean_int account_num (fun account_num =>
           acct <- try_except
                     (on_db (fun d => (bank.get_account (VInt account_num)
                                         (VUser user_token) d, d)))
                     lookup_errors ;;
           ret (http_responses.OK_init (account_html acct) []))
   end)%py.

(** The checks that [do_deposit] and [do_withdraw] make on the form
    fields, in the order of [do_deposit]; [do_withdraw] converts
    [account_num] before it cleans [notes], and neither step depends on
    the other. *)
Definition transfer_fields (request_body : string)
  (k : Z -> float -> string -> M t http_responses.OK) : M t http_responses.OK :=
  (params <- lift_result (http_utils.convert_query_params_to_dictionary request_body) ;;
   match params !! "account_num" with
   | None => bad_request "account_num parameter value can only be digits"
   | Some account_num =>
       if negb (isdecimal account_num)
       then bad_request "account_num parameter value can only be digits"
       else
         match params !! "amount" with
         | None => bad_request "missing required parameter amount"
         | Some amount =>
             match float_of_str amount with
             | None => bad_request "amount must be an float"
             | Some amount =>
                 let notes := clean (default "" (params !! "notes")) in
                 clean_int account_num (fun account_num => k account_num amount notes)
             end
         end
   end)%py.

Definition do_deposit (amb : Ambient) (headers : gmap string string)
  (request_body : string) : M t http_responses.OK :=
  (user_token <- on_sessions
                   (http_session_manager.authenticate (time_time amb) headers) ;;
   transfer_fields request_body (fun account_num amount notes =>
     try_except
       (acct <- on_db (bank.deposit (VInt account_num) (VFloat amount) notes
                                    (VUser user_token)) ;;
        ret (account_json acct))
       bank_errors))%py.

Definition do_withdraw (amb : Ambient) (headers : gmap string string)
  (request_body : string) : M t http_responses.OK :=
  (user_token <- on_sessions
                   (http_session_manager.authenticate (time_time amb) headers) ;;
   transfer_fields request_body (fun account_num amount notes =>
     try_except
       (acct <- on_db (bank.withdraw (VInt account_num) (VFloat amount) notes
                                     (VUser user_token)) ;;
        ret (account_json acct))
       bank_errors))%py.

(** The checks of [do_create_account] up to the call of [bank]. *)
Definition create_fields (amb : Ambient) (headers : gmap string string)
  (request_body : string) : M t (string * float * User) :=
  (user_token <- on_sessions
                   (http_session_manager.authenticate (time_time amb) headers) ;;
   params <- lift_result (http_utils.convert_query_params_to_dictionary request_body) ;;
   match params !! "owner_name" with
   | None => bad_request "missing required parameter owner_name"
   | Some owner_name =>
       match params !! "balance" with
       | None => bad_request "missing required parameter balance"
       | Some balance =>
           match float_of_str balance with
           | None => bad_request "balance must be a float"
           | Some balance => ret (clean owner_name, balance, user_token)
           end
       end
   end)%py.

(** [do_create_account]; [vars(acct)] raises [TypeError] on [None]. *)
Definition do_create_account (amb : Ambient) (headers : gmap string string)
  (request_body : string) : P t http_responses.OK :=
  fun w =>
    match create_fields amb headers request_body w with
    | (Raise e, w') => Some (Raise e, w')
    | (Ok (owner_name, balance, user_token), w') =>
        match bank.create_account (VStr owner_name) (VFloat balance)
                (VUser user_token) (randint amb) (db w') with
        | None => None
        | Some (r, d) =>
            Some (try_except
                    (match r with
                     | Ok (Some acct) => ret (account_json acct)
                     | Ok None => raise (TypeError
                         "vars() argument must have __dict__ attribute")
                     | Raise e => raise e
                     end)
                    bank_errors (mkServer d (_session_manager w')))
        end
    end.

(** [html_file_pattern.match(filename)] for ['^.+\.(html|htm|css)$'] with
    [re.IGNORECASE]: [lower] folds the case of a Latin letter. *)
Definition lower (c : ascii) : ascii :=
  let n := N_of_ascii c in
  if ((65 <=? n) && (n <=? 90))%N then ascii_of_N (n + 32) else c.

Fixpoint lower_string (s : string) : string :=
  match s with
  | EmptyString => ""
  | String c s' => String (lower c) (lower_string s')
  end.

Definition extension_at_end (s : string) : bool :=
  existsb (fun ext =>
             existsb (fun tail => String.eqb (lower_string s) (ext ++ tail))
                     [""; LF])
          [".html"; ".htm"; ".css"].

Fixpoint extension_later (s : string) : bool :=
  extension_at_end s ||
  match s with
  | String c s' => negb (Ascii.eqb c "010") && extension_later s'
  | EmptyString => false
  end.

Definition html_file_pattern (filename : string) : bool :=
  match filename with
  | String c s' => negb (Ascii.eqb c "010") && extension_later s'
  | EmptyString => false
  end.

Definition not_found {A} : M t A :=
  raise (HttpError (http_responses.NotFound (Some "Invalid resource.") [])).

Definition do_get_file_resource (resource : string)
  (headers : gmap string string) : M t http_responses.OK :=
  let filename := if String.eqb resource "/" then "menu.html"
                  else match resource with
                       | String _ rest => rest
                       | EmptyString => ""
                       end in
  if html_file_pattern filename then
    match html_file filename with
    | Some (Ok html_data) => ret (http_responses.OK_init html_data [])
    | Some (Raise e) => raise e
    | None => not_found
    end
  else not_found.

Definition do_login (amb : Ambient) (headers : gmap string string)
  (request_body : string) : M t http_responses.OK :=
  (params <- lift_result (http_utils.convert_query_params_to_dictionary request_body) ;;
   match params !! "username" with
   | None => bad_request "missing required username"
   | Some username =>
       match params !! "password" with
       | None => bad_request "missing required password"
       | Some password =>
           let username := clean username in
           let password := clean password in
           cookie <- try_except
                       (user <- on_db (fun d => (bank.login (VStr username)
                                                   (VStr password) d, d)) ;;
                        on_sessions (http_session_manager.create_session
                                       (urandom amb) (time_time amb) user headers))
                       (fun err => match err with
                                   | ValueError _ =>
                                       Some (HttpError (http_responses.Forbidden
                                                          (Some (exn_str err)) []))
                                   | _ => None
                                   end) ;;
           response <- do_get_file_resource "/menu.html" headers ;;
           ret (http_responses.mkOK [SimpleCookie_str cookie]
                                    (http_responses.body response))
       end
   end)%py.

Definition do_logout (headers : gmap string string) : M t http_responses.OK :=
  match headers !! "Cookie" with
  | Some _ =>
      (cookie <- on_sessions (http_session_manager.delete_session headers) ;;
       ret (http_responses.OK_init logout_html [SimpleCookie_str cookie]))%py
  | None => ret (http_responses.OK_init logout_html [])
  end.

Definition handle_post (amb : Ambient) (resource : string)
  (headers : gmap string string) (request_body : string)
  : P t http_responses.OK :=
  if String.eqb resource "/createaccount"
  then do_create_account amb headers request_body
  else if String.eqb resource "/deposit"
  then liftP (do_deposit amb headers request_body)
  else if String.eqb resource "/withdraw"
  then liftP (do_withdraw amb headers request_body)
  else if String.eqb resource "/login"
  then liftP (do_login amb headers request_body)
  else liftP not_found.

Definition handle_get (amb : Ambient) (resource : string)
  (headers : gmap string string) : M t http_responses.OK :=
  if bool_decide (is_Some (strip_prefix "/accountdetails" resource))
  then do_get_account_info amb resource headers
  else if String.eqb resource "/logout"
  then do_logout headers
  else do_get_file_resource resource headers.

(** The locals of [main] that outlive one turn of its loop. *)
Record Main := mkMain {
  clients_and_rates : gmap N Z;
  count : Z;
  start_time : float
}.

(** The [Access-Control-Allow-Origin] header appended when the request
    has an [Origin] header. *)
Definition cors (headers : gmap string string) (response : http_responses.Response)
  : http_responses.Response :=
  match headers !! "Origin" with
  | None => response
  | Some origin =>
      let extra := ["Access-Control-Allow-Origin: " ++ origin] in
      match response with
      | http_responses.RespOK r =>
          http_responses.RespOK
            (http_responses.mkOK (http_responses.headers r ++ extra)%list
                                 (http_responses.body r))
      | http_responses.RespError e =>
          http_responses.RespError
            (mkHttpError (code e) (reason e) (err_body e)
                         (err_headers e ++ extra)%list)
      end
  end.

(** An [OK] object as the response of the turn. *)
Definition as_response (r : option (outcome http_responses.OK * t))
  : option (outcome http_responses.Response * t) :=
  match r with
  | Some (Ok ok, w) => Some (Ok (http_responses.RespOK ok), w)
  | Some (Raise e, w) => Some (Raise e, w)
  | None => None
  end.

(** The part of the loop of [main] that follows [recv]: the parse, the
    dispatch on the method and the header for [Origin]. *)
Definition dispatch (amb : Ambient) (request : string)
  : P t http_responses.Response :=
  fun w =>
    match http_utils.parse_request request with
    | Raise e => Some (Raise e, w)
    | Ok (method, resource, protocol, headers, body) =>
        let response :=
          if String.eqb method "GET"
          then as_response (Some (handle_get amb resource headers w))
          else if String.eqb method "POST"
          then as_response (handle_post amb resource headers body w)
          else Some (Ok (http_responses.RespError
                           (http_responses.NotImplementedStatus None [])), w) in
        match response with
        | Some (Ok r, w') => Some (Ok (cors headers r), w')
        | other => other
        end
    end.

(** One turn of the loop of [main] for the connection [client_connection]
    that delivers [request].  [Ok r]: the response [r] is sent.
    [Raise e]: [e] is not an [HttpErrorResponse] and leaves the loop. *)
Definition main_iteration (client_connection : N) (request : string)
  (amb : Ambient) (st : Main) (w : t)
  : option (outcome http_responses.Response * Main * t) :=
  let end_time := (start_time st + 900)%float in
  let count := (count st + 1)%Z in
  let rates := <[client_connection := count]> (clients_and_rates st) in
  let rates := if (start_time st =? end_time)%float then ∅ else rates in
  let st := mkMain rates count (start_time st) in
  match rates !! client_connection with
  | None => Some (Raise (KeyError "client_connection"), st, w)
  | Some n =>
      if (10 <=? n)%Z
      then Some (Raise (Exception "HTTP Error 429 TOO MANY REQUESTS"), st, w)
      else
        match dispatch amb request w with
        | None => None
        | Some (Ok r, w') => Some (Ok r, st, w')
        | Some (Raise (HttpError err), w') =>
            Some (Ok (http_responses.RespError err), st, w')
        | Some (Raise e, w') => Some (Raise e, st, w')
        end
  end.

(** [main]: the loop over the connections that [accept] returns, in
    order, each with the request it delivers and what its turn reads
    from outside.  The result lists the responses sent and gives the
    exception that ended [main], if one did ([None]: every connection of
    the list was answered and [main] waits in [accept]). *)
Fixpoint main_loop (connections : list (N * string * Ambient)) (st : Main) (w : t)
  : option (list http_responses.Response * option PyExn * t) :=
  match connections with
  | [] => Some ([], None, w)
  | (client_connection, request, amb) :: connections' =>
      match main_iteration client_connection request amb st w with
      | None => None
      | Some (Raise e, _, w') => Some ([], Some e, w')
      | Some (Ok response, st', w') =>
          match main_loop connections' st' w' with
          | None => None
          | Some (sent, stop, w'') => Some (response :: sent, stop, w'')
          end
      end
  end.

Definition main (start_time : float) (connections : list (N * string * Ambient))
  (w : t) : option (list http_responses.Response * option PyExn * t) :=
  main_loop connections (mkMain ∅ 0 start_time) w.

End Handlers.
End server.


(** ** Notions of the specification *)

(** An owner name of the data model: 1 to 64 Latin letters and spaces. *)
Definition valid_owner_name (s : string) : bool :=
  (1 <=? String.length s)%nat && (String.length s <=? 64)%nat
  && forallb bank.latin_or_space (list_ascii_of_string s).

(** The authorization rule: a banker, or the customer who owns the
    target account. *)
Definition authorized (actor : User) (target : Z) : Prop :=
  role actor = BANKER \/
  (role actor = CUSTOMER /\ user_account_num actor = target).


(** What every call of [Database.search_by_id] and of
    [Database.authenticate] raises. *)
Definition lookup_error : PyExn := NameError "SQL_inj_check".

(** The message of the forbidden outcome of [bank]. *)
Definition forbidden : PyExn :=
  PermissionError "You do not have permission to do that.".

(** An amount that passes the range check of [deposit] and [withdraw]. *)
Definition in_range (amount : float) : bool :=
  negb ((amount <? 0)%float || (float_info_max <? amount)%float).

(** The request authenticates as [user_token], leaving the server in
    [w1], and its form carries the fields [account_num], [amount] and
    [notes] of a deposit or a withdrawal. *)
Definition accepted_transfer `{Cookies} `{Urllib} `{Bleach} `{Builtins}
  (amb : Ambient) (headers : gmap string string) (request_body : string)
  (w : server.t) (user_token : User) (w1 : server.t)
  (account_num : Z) (amount : float) (notes : string) : Prop :=
  server.on_sessions
    (http_session_manager.authenticate (time_time amb) headers) w
  = (Ok user_token, w1) /\
  exists params a s,
    http_utils.convert_query_params_to_dictionary request_body = Ok params /\
    params !! "account_num" = Some a /\ isdecimal a = true /\
    params !! "amount" = Some s /\ float_of_str s = Some amount /\
    int_of_str (clean a) = Some account_num /\
    notes = clean (default "" (params !! "notes")).

(** The balance that [Database.update_account] writes for an account
    number when it is handed the balance [expected]. *)
Definition persisted_balance (num : Z) (expected : float) : float :=
  if (num =? 935370)%Z then 0%float else expected.

(** The integrity failure of [deposit] and [withdraw]. *)
Definition integrity_error : PyExn :=
  RuntimeError "Something went wrong. Contact the administrator.".

(** The status code of the response that a turn of [main] sends, if it
    sends one. *)
Definition sent_status
  (turn : option (outcome http_responses.Response * server.Main * server.t))
  : option Z :=
  match turn with
  | Some (Ok response, _, _) => Some (http_responses.status response)
  | _ => None
  end.


(** The entry that one header line adds to the dictionary of headers:
    the name and the value around the first colon, stripped and
    percent-decoded by [unquote], which leaves a [+] as it is. *)
Definition add_header `{Urllib} (headers : gmap string string) (header : string)
  : gmap string string :=
  let '(field_name, _, field_value) := partition ":" header in
  <[unquote (strip field_name) := unquote (strip field_value)]> headers.

(** A header line that [parse_request] accepts: it has a colon and
    something after it. *)
Definition well_formed_header (header : string) : Prop :=
  let '(_, sep, field_value) := partition ":" header in
  sep <> "" /\ field_value <> "".

(** Every stored balance is a number that satisfies [balance >= 0]. *)
Definition balances_nonnegative (db : Database.t) : Prop :=
  forall num row, Database.accounts db !! num = Some row ->
    exists b, Database.row_balance row = Some b /\ (0 <=? b)%float = true.

(** [db'] differs from [db] at most in the row of the account that
    [account_num] names: same users, same other rows, same account
    numbers, same owners. *)
Definition only_row_changed (account_num : PyVal) (db db' : Database.t) : Prop :=
  Database.users db' = Database.users db /\
  (forall k, account_num <> VInt k ->
             Database.accounts db' !! k = Database.accounts db !! k) /\
  dom (Database.accounts db') = dom (Database.accounts db) /\
  (forall k r r', Database.accounts db !! k = Some r ->
                  Database.accounts db' !! k = Some r' ->
                  Database.row_owner r' = Database.row_owner r).

(** The character [c] occurs in [s]. *)
Definition occurs (c : ascii) (s : string) : bool :=
  existsb (fun x => Ascii.eqb x c) (list_ascii_of_string s).

(** A handler that leaves the store of accounts and users as it is,
    whatever it returns or raises. *)
Definition keeps_db {A} (c : M server.t A) : Prop :=
  forall w, server.db (snd (c w)) = server.db w.

(** An owner name that passes the three tests of [create_account]: 1 to
    64 Latin letters and spaces, or 1 to 63 of them and a line feed. *)
Definition accepted_owner_name (s : string) : Prop :=
  valid_owner_name s = true \/
  exists s', s = s' ++ LF /\ valid_owner_name s' = true /\
             (String.length s' <= 63)%nat.

(** ** Stand-ins for the collaborators

    Simple implementations of the parameters, used to run the model on
    concrete requests. *)
Module Sample.

Definition hex_digit (c : ascii) : option N :=
  let n := N_of_ascii c in
  if ((48 <=? n) && (n <=? 57))%N then Some (n - 48)%N
  else if ((65 <=? n) && (n <=? 70))%N then Some (n - 55)%N
  else if ((97 <=? n) && (n <=? 102))%N then Some (n - 87)%N
  else None.

(** Percent-decoding of the escapes [%00] to [%FF] to one character
    each; [urllib] does the same for the escapes below [%80]. *)
Fixpoint percent_decode (s : string) : string :=
  match s with
  | EmptyString => ""
  | String c s' =>
      if Ascii.eqb c "%" then
        match s' with
        | String a (String b rest) =>
            match hex_digit a, hex_digit b with
            | Some h, Some l => String (ascii_of_N (16 * h + l)) (percent_decode rest)
            | _, _ => String c (percent_decode s')
            end
        | _ => String c (percent_decode s')
        end
      else String c (percent_decode s')
  end.

Definition percent : Urllib := {| unquote := percent_decode |}.

(** The characters that [http.cookies] accepts in the name of a
    cookie: letters, digits and a few signs. *)
Definition legal_key_char (c : ascii) : bool :=
  let n := N_of_ascii c in
  ((65 <=? n) && (n <=? 90) || (97 <=? n) && (n <=? 122)
   || (48 <=? n) && (n <=? 57))%N
  || code_in c [33; 35; 36; 37; 38; 39; 42; 43; 45; 46; 94; 95; 96; 124; 126; 58]%N.

(** A cookie header of the form [name=value]; a name with a character
    that is not legal is refused with [CookieError], as [load] does. *)
Definition one_cookie : Cookies := {|
  SimpleCookie_load raw :=
    let '(name, sep, val) := partition "=" raw in
    if negb (truthy sep) || negb (truthy name) then Ok ∅
    else if forallb legal_key_char (list_ascii_of_string name)
    then Ok {[ name := mkMorsel val None None ]}
    else Raise (CookieError ("Illegal key '" ++ name ++ "'"));
  SimpleCookie_str cookie :=
    match cookie !! http_session_manager._SESSION_ID with
    | Some m => "Set-Cookie: SD-SessionID=" ++ value m
    | None => ""
    end
|}.

Definition digit_value (c : ascii) : Z := Z.of_N (N_of_ascii c) - 48.

Definition decimal (s : string) : option Z :=
  if isdecimal s
  then Some (fold_left (fun acc c => 10 * acc + digit_value c)
                       (list_ascii_of_string s) 0)
  else None.

(** [float] on the few literals that the examples send. *)
Definition literals : Builtins := {|
  float_of_str s :=
    if String.eqb s "nan" then Some nan
    else if String.eqb s "-1" then Some (-1)%float
    else if String.eqb s "50" then Some 50%float
    else if String.eqb s "500" then Some 500%float
    else None;
  int_of_str := decimal
|}.

Definition plain_json : Json :=
  {| dumps_account acct := owner_name acct; loads_ok _ := false |}.

Definition no_bleach : Bleach := {| clean s := s |}.

Definition no_pages : Pages :=
  {| account_html acct := owner_name acct; logout_html := ""; html_file _ := None |}.

Definition banker : User := mkUser "teller" 0 BANKER "" "".
Definition customer : User := mkUser "jane" 100001 CUSTOMER "" "".

(** A request that carries the session token [tok], and a session
    store that knows this token, for the banker, until time 100. *)
Definition cookie_headers : gmap string string :=
  {[ "Cookie" := "SD-SessionID=tok" ]}.
Definition sessions : http_session_manager.t :=
  http_session_manager.mkManager
    {[ "tok" := http_session_manager.mkSession banker 100 ]} None.

(** A store with the accounts 100001 (balance 100), 100002 (balance
    three tenths) and 935370, and the customer [jane]. *)
Definition db : Database.t :=
  Database.mkDatabase
    (<[100001 := Database.mkAccountRow "Jane Doe" (Some 100%float) None]>
       (<[100002 := Database.mkAccountRow "Ann Poe" (Some (3 / 10)%float) None]>
          (<[935370 := Database.mkAccountRow "John Roe" (Some 5%float)
                         (Some "opened")]> ∅)))
    (<["jane" := Database.mkUserRow 100001 "CUSTOMER" "pwsalt" "salt"]> ∅).

(** A server with the sample store and the sample session, at the
    start of [main], and a clock at 50. *)
Definition world : server.t := server.mkServer db sessions.
Definition main_start : server.Main := server.mkMain ∅ 0 0.
Definition ambient : Ambient := mkAmbient 50 [] "".

(** A request with a [+] in the path, in a header value and in the
    body. *)
Definition plus_request : string :=
  "GET /a+b HTTP/1.1" ++ LF ++
  "X-Note: a+b%21" ++ LF ++
  LF ++
  "a+b%21".

(** [POST /deposit] of -1 to account 100001. *)
Definition negative_deposit_request : string :=
  "POST /deposit HTTP/1.1" ++ LF ++
  "Cookie: SD-SessionID=tok" ++ LF ++
  LF ++
  "account_num=100001&amount=-1".

(** A request line with a blank in the version, a request with
    another method than [GET] and [POST], and [POST /createaccount] by
    the banker with a clock at 50 and the number 100005 drawn. *)
Definition blank_version_request : string :=
  "GET / HTTP/1 1" ++ LF ++ LF.


Definition create_request : string :=
  "POST /createaccount HTTP/1.1" ++ LF ++
  "Cookie: SD-SessionID=tok" ++ LF ++
  LF ++
  "owner_name=Jane+Doe&balance=50".

Definition drawing : Ambient := mkAmbient 50 [100005] "".

(** The server once [authenticate] has accepted the sample session and
    written the snapshot. *)
Definition authenticated : server.t :=
  server.mkServer db
    (http_session_manager.mkManager
       (http_session_manager._sessions sessions)
       (Some (http_session_manager._sessions sessions))).

(** Ten connections that each ask for a page that is not there. *)
Definition ten_connections : list (N * string * Ambient) :=
  repeat (1%N, plus_request, ambient) 10.

(** [POST /deposit] of 50 to account 100001 and [GET] of the details
    of that account, with the sample session. *)
Definition deposit_request : string :=
  "POST /deposit HTTP/1.1" ++ LF ++
  "Cookie: SD-SessionID=tok" ++ LF ++
  LF ++
  "account_num=100001&amount=50".

Definition details_request : string :=
  "GET /accountdetails?account_num=100001 HTTP/1.1" ++ LF ++
  "Cookie: SD-SessionID=tok" ++ LF ++
  LF.

End Sample.


(** * Properties *)

(** ** Binary64 facts *)

Section Binary64.
Local Open Scope Z_scope.




Lemma SFcompare_antisym (x y : spec_float) :
  SFcompare y x = CompOpp <$> SFcompare x y.
Proof.
  destruct x as [[]|[]| |[] mx ex], y as [[]|[]| |[] my ey]; simpl; try reflexivity;
    rewrite (Z.compare_antisym ex ey); destruct (ex ?= ey)%Z; simpl; try reflexivity;
    rewrite (Pos.compare_cont_antisym mx my Eq); simpl;
    destruct (Pos.compare_cont Eq mx my); reflexivity.
Qed.

Lemma leb_true_ltb_false (x y : float) :
  (x <=? y)%float = true -> (y <? x)%float = false.
Proof.
  rewrite FloatAxioms.leb_spec, FloatAxioms.ltb_spec. unfold SFleb, SFltb.
  rewrite (SFcompare_antisym (Prim2SF x) (Prim2SF y)).
  destruct (SFcompare (Prim2SF x) (Prim2SF y)) as [[]|]; simpl; congruence.
Qed.


End Binary64.


(** ** The ledger step by step *)

Section Ledger.

Lemma no_permission_spec (actor : User) (acct : Account) :
  bank.no_permission actor acct = false <-> authorized actor (account_num acct).
Proof.
  unfold bank.no_permission, authorized.
  destruct (role actor); simpl;
    destruct (Z.eqb_spec (user_account_num actor) (account_num acct)); simpl;
    intuition congruence.
Qed.

Lemma no_permission_true (actor : User) (acct : Account) :
  bank.no_permission actor acct = true <-> ~ authorized actor (account_num acct).
Proof.
  rewrite <- no_permission_spec.
  destruct (bank.no_permission actor acct); intuition congruence.
Qed.

(** [deposit] and [withdraw] on an account number, an amount and a
    user of the right types: the range check, then the lookup, which
    raises. *)
Lemma deposit_reaches_lookup (n : Z) (amount : float) (notes : string)
  (actor : User) (db : Database.t) :
  bank.deposit (VInt n) (VFloat amount) notes (VUser actor) db
  = (if in_range amount then Raise lookup_error
     else Raise (ValueError
       "amount must be non-negative and less than 1.7976931348623157e+308"), db).
Proof.
  unfold bank.deposit, in_range.
  destruct ((amount <? 0)%float || (float_info_max <? amount)%float); reflexivity.
Qed.

Lemma withdraw_reaches_lookup (n : Z) (amount : float) (notes : string)
  (actor : User) (db : Database.t) :
  bank.withdraw (VInt n) (VFloat amount) notes (VUser actor) db
  = (if in_range amount then Raise lookup_error
     else Raise (ValueError
       "balance must be non-negative and less than 1.7976931348623157e+308"), db).
Proof.
  unfold bank.withdraw, in_range.
  destruct ((amount <? 0)%float || (float_info_max <? amount)%float); reflexivity.
Qed.

(** Whatever its arguments are, a transfer raises and leaves the store
    as it was; what it raises is a [TypeError], a [ValueError] or the
    [NameError] of the lookup. *)
Lemma deposit_raises (account_num amount user : PyVal) (notes : string)
  (db : Database.t) :
  exists e, bank.deposit account_num amount notes user db = (Raise e, db) /\
            ((exists msg, e = TypeError msg) \/ (exists msg, e = ValueError msg)
             \/ e = lookup_error).
Proof.
  unfold bank.deposit.
  destruct account_num as [|n| | |]; try (eexists; split; [reflexivity|eauto]).
  destruct amount as [| |amount| |]; try (eexists; split; [reflexivity|eauto]).
  destruct (_ || _); [eexists; split; [reflexivity|eauto]|].
  destruct user as [| | | |actor]; eexists; (split; [reflexivity|eauto]).
Qed.

Lemma withdraw_raises (account_num amount user : PyVal) (notes : string)
  (db : Database.t) :
  exists e, bank.withdraw account_num amount notes user db = (Raise e, db) /\
            ((exists msg, e = TypeError msg) \/ (exists msg, e = ValueError msg)
             \/ e = lookup_error).
Proof.
  unfold bank.withdraw.
  destruct account_num as [|n| | |]; try (eexists; split; [reflexivity|eauto]).
  destruct amount as [| |amount| |]; try (eexists; split; [reflexivity|eauto]).
  destruct (_ || _); [eexists; split; [reflexivity|eauto]|].
  destruct user as [| | | |actor]; eexists; (split; [reflexivity|eauto]).
Qed.

Lemma deposit_keeps_store (account_num amount user : PyVal) (notes : string)
  (db : Database.t) :
  snd (bank.deposit account_num amount notes user db) = db.
Proof.
  destruct (deposit_raises account_num amount user notes db) as (e & -> & _).
  reflexivity.
Qed.

Lemma withdraw_keeps_store (account_num amount user : PyVal) (notes : string)
  (db : Database.t) :
  snd (bank.withdraw account_num amount notes user db) = db.
Proof.
  destruct (withdraw_raises account_num amount user notes db) as (e & -> & _).
  reflexivity.
Qed.

Lemma create_account_loop_raises (draws : list Z) (owner_name : string)
  (balance : float) (db : Database.t) (r : outcome (option Account))
  (db' : Database.t) :
  bank.create_account_loop draws owner_name balance db = Some (r, db') ->
  db' = db /\ exists e, r = Raise e.
Proof.
  destruct draws as [|new_id draws]; cbn; [discriminate|].
  intros [= <- <-]. eauto.
Qed.

Lemma create_account_keeps_store (owner_name balance user : PyVal)
  (draws : list Z) (db db' : Database.t) (r : outcome (option Account)) :
  bank.create_account owner_name balance user draws db = Some (r, db') -> db' = db.
Proof.
  unfold bank.create_account.
  destruct owner_name as [| | |s|]; try (intros [= <- <-]; reflexivity).
  destruct (_ || _); [intros [= <- <-]; reflexivity|].
  destruct balance as [| |b| |]; try (intros [= <- <-]; reflexivity).
  destruct (_ || _); [intros [= <- <-]; reflexivity|].
  destruct user as [| | | |u]; try (intros [= <- <-]; reflexivity).
  destruct (negb _); [intros [= <- <-]; reflexivity|].
  intros Hloop. exact (proj1 (create_account_loop_raises _ _ _ _ _ _ Hloop)).
Qed.

(** The part of [deposit] and [withdraw] that follows the checks, on a
    store that has the row: the row is rewritten, and the outcome is
    decided by the comparison of the two balances. *)
Lemma update_and_validate_spec (acct : Account) (db : Database.t)
  (row : Database.AccountRow) :
  Database.accounts db !! account_num acct = Some row ->
  let persisted := persisted_balance (account_num acct) (balance acct) in
  bank.update_and_validate acct db
  = (if (persisted =? balance acct)%float then Ok acct else Raise integrity_error,
     Database.mkDatabase
       (<[account_num acct :=
            Database.mkAccountRow (owner_name acct) (Database.sql_real persisted)
              (notes acct)]> (Database.accounts db))
       (Database.users db)).
Proof.
  intros Hrow persisted. subst persisted.
  unfold bank.update_and_validate, bind, Database.update_account, persisted_balance,
    raise, ret.
  cbn [account_num owner_name balance notes].
  destruct (account_num acct =? 935370)%Z eqn:Hn;
    cbn [account_num owner_name balance notes]; rewrite Hrow;
    unfold Database.row_of; cbn [account_num owner_name balance notes];
    destruct (_ =? balance acct)%float; reflexivity.
Qed.

End Ledger.

(** ** The authorization step of the ledger *)

Section LedgerAuthorization.

(** C1. The test that [deposit], [withdraw] and [get_account] make on
    the actor is the rule of the claim: it lets through a banker and
    the customer who owns the target account, and nobody else.  But
    no call reaches it: the lookup of the target account, which comes
    first, raises [NameError] for every account number, so an actor who
    is authorized does not get past the authorization step, and one
    who is not gets [NameError], not the forbidden [PermissionError]. *)
Theorem authorization_step_not_reached (db : Database.t) (n : Z) (actor : User)
  (amount : float) (notes : string) :
  (forall acct, bank.no_permission actor acct = false
                <-> authorized actor (account_num acct)) /\
  bank.get_account (VInt n) (VUser actor) db = Raise lookup_error /\
  bank.deposit (VInt n) (VFloat amount) notes (VUser actor) db
  = (if in_range amount then Raise lookup_error
     else Raise (ValueError
       "amount must be non-negative and less than 1.7976931348623157e+308"), db) /\
  bank.withdraw (VInt n) (VFloat amount) notes (VUser actor) db
  = (if in_range amount then Raise lookup_error
     else Raise (ValueError
       "balance must be non-negative and less than 1.7976931348623157e+308"), db) /\
  lookup_error <> forbidden.
Proof.
  split; [intros acct; apply no_permission_spec|].
  split; [reflexivity|].
  split; [apply deposit_reaches_lookup|].
  split; [apply withdraw_reaches_lookup|discriminate].
Qed.

End LedgerAuthorization.

(** ** Login *)

Section Login.

(** C7. [login] with the pair [admin], [admin] returns a banker
    whatever the store holds.  With any other pair of strings it asks
    [Database.authenticate], whose first statement raises [NameError]:
    it neither returns the user of a matching row nor raises the
    [ValueError] of a wrong pair. *)
Theorem login_rule (db : Database.t) (username password : string) :
  bank.login (VStr "admin") (VStr "admin") db
  = Ok (mkUser "admin" 999999 BANKER "password" "salt") /\
  (String.eqb username "admin" && String.eqb password "admin" = false ->
   bank.login (VStr username) (VStr password) db = Raise lookup_error) /\
  lookup_error
  <> ValueError "That username and password combination is incorrect".
Proof.
  split; [reflexivity|]. split; [|discriminate].
  intros Hother. unfold bank.login, bank.get_SUPPORT_UN, bank.get_SUPPORT_PW.
  rewrite Hother. reflexivity.
Qed.

End Login.

(** ** The session store *)

Section Sessions.
Context `{Cookies}.


End Sessions.

Section SessionsExample.
#[local] Existing Instance Sample.one_cookie.



End SessionsExample.

(** ** The check after the write *)

Section Integrity.
Context `{Json} `{Bleach} `{Urllib} `{Cookies} `{Builtins} `{Pages}.

Lemma transfer_fields_accepted (amb : Ambient) (headers : gmap string string)
  (request_body : string) (w : server.t) (user_token : User) (w1 : server.t)
  (account_num : Z) (amount : float) (notes : string)
  (k : Z -> float -> string -> M server.t http_responses.OK) :
  accepted_transfer amb headers request_body w user_token w1 account_num amount notes ->
  server.transfer_fields request_body k w1 = k account_num amount notes w1.
Proof.
  intros [_ (params & a & s & Hq & Ha & Hdec & Hs & Hf & Hn & ->)].
  unfold server.transfer_fields, bind, lift_result, server.clean_int.
  rewrite Hq, Ha, Hdec, Hs, Hf, Hn. reflexivity.
Qed.

Lemma handlers_map_errors {A} (c : M Database.t A) (w : server.t) (e : PyExn)
  (d : Database.t) (f : A -> http_responses.OK) :
  c (server.db w) = (Raise e, d) ->
  try_except (bind (server.on_db c) (fun a => ret (f a))) server.bank_errors w
  = (Raise (default e (server.bank_errors e)),
     server.mkServer d (server._session_manager w)).
Proof.
  intros Hc. unfold try_except, bind, server.on_db. rewrite Hc.
  destruct (server.bank_errors e); reflexivity.
Qed.

(** An exception that leaves [handle_post] leaves [dispatch] as it is,
    and [main] sends an [HttpErrorResponse] that reaches it as the
    response of the turn. *)
Lemma dispatch_post_raises (amb : Ambient) (request resource protocol body : string)
  (headers : gmap string string) (w w' : server.t) (e : PyExn) :
  http_utils.parse_request request = Ok ("POST", resource, protocol, headers, body) ->
  server.handle_post amb resource headers body w = Some (Raise e, w') ->
  server.dispatch amb request w = Some (Raise e, w').
Proof.
  intros Hparse Hpost. unfold server.dispatch. rewrite Hparse.
  cbn [String.eqb Ascii.eqb Bool.eqb]. rewrite Hpost. reflexivity.
Qed.

Lemma main_iteration_sends_error (client_connection : N) (request : string)
  (amb : Ambient) (st : server.Main) (w w' : server.t) (err : HttpErrorResponse) :
  server.dispatch amb request w = Some (Raise (HttpError err), w') ->
  (server.count st + 1 < 10)%Z ->
  (server.start_time st =? server.start_time st + 900)%float = false ->
  sent_status (server.main_iteration client_connection request amb st w)
  = Some (code err).
Proof.
  intros Hd Hcount Hclock. unfold server.main_iteration.
  rewrite Hclock, lookup_insert_eq.
  destruct (Z.leb_spec 10 (server.count st + 1)) as [Hle|_]; [lia|].
  rewrite Hd. reflexivity.
Qed.

(** The handlers of [/deposit] and [/withdraw] on a request that
    authenticates and carries well-formed fields with an amount in
    range: the [NameError] of the lookup passes every [except] clause. *)
Lemma transfer_handlers_raise (amb : Ambient) (headers : gmap string string)
  (request_body : string) (w w1 : server.t) (user_token : User) (n : Z)
  (amount : float) (notes : string) :
  accepted_transfer amb headers request_body w user_token w1 n amount notes ->
  in_range amount = true ->
  server.handle_post amb "/deposit" headers request_body w
  = Some (Raise lookup_error, w1) /\
  server.handle_post amb "/withdraw" headers request_body w
  = Some (Raise lookup_error, w1).
Proof.
  intros Hacc Hrange. pose proof Hacc as [Hauth _].
  assert (Hsame : server.mkServer (server.db w1) (server._session_manager w1) = w1)
    by (destruct w1; reflexivity).
  unfold server.handle_post, liftP. cbn [String.eqb Ascii.eqb Bool.eqb].
  split.
  - unfold server.do_deposit, bind at 1. rewrite Hauth.
    rewrite (transfer_fields_accepted _ _ _ _ _ _ _ _ _ _ Hacc).
    pose proof (deposit_reaches_lookup n amount notes user_token (server.db w1))
      as Hbank. rewrite Hrange in Hbank.
    rewrite (handlers_map_errors _ _ _ _ _ Hbank), Hsame. reflexivity.
  - unfold server.do_withdraw, bind at 1. rewrite Hauth.
    rewrite (transfer_fields_accepted _ _ _ _ _ _ _ _ _ _ Hacc).
    pose proof (withdraw_reaches_lookup n amount notes user_token (server.db w1))
      as Hbank. rewrite Hrange in Hbank.
    rewrite (handlers_map_errors _ _ _ _ _ Hbank), Hsame. reflexivity.
Qed.

(** C4. The lines of [deposit] and [withdraw] that follow the checks do
    what the claim says: on a store that has the row they write it and
    compare the balance of the written record with the balance
    computed, raising the [RuntimeError] of the integrity check when
    the two differ and returning the account when they are equal, and
    the handlers turn a [RuntimeError] into an [Internal Server Error]
    with code 500.  But no call gets there: [deposit] and [withdraw]
    raise before the write, whatever their arguments, so they never
    return the updated account and never raise the [RuntimeError], and
    the handlers of a well-formed request with an amount in range let
    the [NameError] of the lookup through instead of answering. *)
Theorem integrity_check_not_reached (db : Database.t) :
  (forall account_num amount user notes r db',
     bank.deposit account_num amount notes user db = (r, db') \/
     bank.withdraw account_num amount notes user db = (r, db') ->
     db' = db /\ (forall acct, r <> Ok acct) /\
     (forall msg, r <> Raise (RuntimeError msg))) /\
  (forall acct row,
     Database.accounts db !! account_num acct = Some row ->
     let persisted := persisted_balance (account_num acct) (balance acct) in
     bank.update_and_validate acct db
     = (if (persisted =? balance acct)%float then Ok acct
        else Raise integrity_error,
        Database.mkDatabase
          (<[account_num acct :=
               Database.mkAccountRow (owner_name acct)
                 (Database.sql_real persisted) (notes acct)]>
             (Database.accounts db))
          (Database.users db))) /\
  (forall msg,
     server.bank_errors (RuntimeError msg)
     = Some (HttpError (http_responses.InternalServerError
                          (Some "A runtime error occurred. Try again.") [])) /\
     code (http_responses.InternalServerError
             (Some "A runtime error occurred. Try again.") []) = 500) /\
  (forall amb headers request_body w w1 user_token n amount notes,
     accepted_transfer amb headers request_body w user_token w1 n amount notes ->
     in_range amount = true ->
     server.handle_post amb "/deposit" headers request_body w
     = Some (Raise lookup_error, w1) /\
     server.handle_post amb "/withdraw" headers request_body w
     = Some (Raise lookup_error, w1)).
Proof.
  split; [|split; [|split]].
  - intros account_num amount user notes r db' [Hop|Hop].
    + destruct (deposit_raises account_num amount user notes db) as (e & He & Hkind).
      rewrite He in Hop. injection Hop as <- <-.
      split; [reflexivity|]. split; [discriminate|].
      intros msg. destruct Hkind as [[m ->]|[[m ->]| ->]]; discriminate.
    + destruct (withdraw_raises account_num amount user notes db) as (e & He & Hkind).
      rewrite He in Hop. injection Hop as <- <-.
      split; [reflexivity|]. split; [discriminate|].
      intros msg. destruct Hkind as [[m ->]|[[m ->]| ->]]; discriminate.
  - intros acct row Hrow. exact (update_and_validate_spec acct db row Hrow).
  - intros msg. split; reflexivity.
  - intros amb headers request_body w w1 user_token n amount notes.
    apply transfer_handlers_raise.
Qed.

End Integrity.

(** ** Validation failures at the dispatcher *)

Section ValidationStatus.
Context `{Json} `{Bleach} `{Urllib} `{Cookies} `{Builtins} `{Pages}.

(** A [ValueError] or a [TypeError] of the ledger leaves the handlers of
    [/deposit] and [/withdraw] as a [Bad Request] with code 400. *)
Lemma validation_error_is_bad_request (amb : Ambient)
  (headers : gmap string string) (request_body : string) (w w1 : server.t)
  (user_token : User) (n : Z) (amount : float) (notes : string)
  (e : PyExn) (d : Database.t) :
  accepted_transfer amb headers request_body w user_token w1 n amount notes ->
  (exists msg, e = ValueError msg \/ e = TypeError msg) ->
  let bad_request := http_responses.BadRequest (Some (exn_str e)) [] in
  code bad_request = 400 /\
  (bank.deposit (VInt n) (VFloat amount) notes (VUser user_token) (server.db w1)
   = (Raise e, d) ->
   server.handle_post amb "/deposit" headers request_body w
   = Some (Raise (HttpError bad_request),
           server.mkServer d (server._session_manager w1))) /\
  (bank.withdraw (VInt n) (VFloat amount) notes (VUser user_token) (server.db w1)
   = (Raise e, d) ->
   server.handle_post amb "/withdraw" headers request_body w
   = Some (Raise (HttpError bad_request),
           server.mkServer d (server._session_manager w1))).
Proof.
  intros Hacc [msg He] bad_request. split; [reflexivity|].
  pose proof Hacc as [Hauth _].
  assert (Hmap : server.bank_errors e = Some (HttpError bad_request))
    by (destruct He as [-> | ->]; reflexivity).
  unfold server.handle_post, liftP. cbn [String.eqb Ascii.eqb Bool.eqb].
  split; intros Hbank.
  - unfold server.do_deposit, bind at 1. rewrite Hauth.
    rewrite (transfer_fields_accepted _ _ _ _ _ _ _ _ _ _ Hacc).
    rewrite (handlers_map_errors _ _ _ _ _ Hbank), Hmap. reflexivity.
  - unfold server.do_withdraw, bind at 1. rewrite Hauth.
    rewrite (transfer_fields_accepted _ _ _ _ _ _ _ _ _ _ Hacc).
    rewrite (handlers_map_errors _ _ _ _ _ Hbank), Hmap. reflexivity.
Qed.

End ValidationStatus.

Section ValidationStatusExample.
#[local] Existing Instance Sample.plain_json.
#[local] Existing Instance Sample.no_bleach.
#[local] Existing Instance Sample.percent.
#[local] Existing Instance Sample.one_cookie.
#[local] Existing Instance Sample.literals.
#[local] Existing Instance Sample.no_pages.

(** C5. The code answers a request that the ledger rejects for a
    validation reason with the status 400, not 200: a deposit of a
    negative amount, sent by a logged-in banker, raises the
    [ValueError] of the range check in [deposit], which [do_deposit]
    turns into [Bad Request]. *)
Theorem validation_failure_status_400 :
  sent_status (server.main_iteration 1 Sample.negative_deposit_request Sample.ambient
                 Sample.main_start Sample.world) = Some 400 /\
  fst (bank.deposit (VInt 100001) (VFloat (-1)) "" (VUser Sample.banker)
         (server.db Sample.world))
  = Raise (ValueError
      "amount must be non-negative and less than 1.7976931348623157e+308").
Proof.
  split; vm_compute; reflexivity.
Qed.

End ValidationStatusExample.

(** ** Account creation *)

Section Creation.

Lemma skip_class_all (s : string) (n : nat) :
  forallb bank.latin_or_space (list_ascii_of_string s) = true ->
  (String.length s <= n)%nat ->
  bank.skip_class n s = "".
Proof.
  revert n. induction s as [|c s IH]; intros n Hall Hlen.
  - destruct n; reflexivity.
  - cbn in Hall, Hlen. apply andb_true_iff in Hall as [Hc Hs].
    destruct n as [|n]; [lia|]. cbn. rewrite Hc. apply IH; [exact Hs|lia].
Qed.

(** A name of the data model passes the three tests that
    [create_account] makes on [owner_name]. *)
Lemma valid_owner_name_accepted (s : string) :
  valid_owner_name s = true ->
  negb (truthy s) || (64 <? String.length s)%nat || negb (bank.OWNER_NAME_PATTERN s)
  = false.
Proof.
  unfold valid_owner_name. intros Hv.
  apply andb_true_iff in Hv as [Hv Hall]. apply andb_true_iff in Hv as [H1 H64].
  apply Nat.leb_le in H1, H64.
  destruct s as [|c s]; [cbn in H1; lia|].
  cbn in Hall. apply andb_true_iff in Hall as [Hc Hs].
  assert (Hlen : (64 <? String.length (String c s))%nat = false)
    by (apply Nat.ltb_ge; exact H64).
  rewrite Hlen. unfold bank.OWNER_NAME_PATTERN. rewrite Hc.
  rewrite (skip_class_all s 63 Hs) by (cbn in H64; lia). reflexivity.
Qed.

(** C6. On a valid owner name and a valid non-negative balance,
    [create_account] by a user who is not a banker raises the forbidden
    [PermissionError].  By a banker it never returns an account: the
    search for the first number drawn raises [NameError], whatever the
    name and the balance, and [Database.create_account], which would
    come next, raises [NameError] as well; the store is never
    changed. *)
Theorem create_account_outcomes (owner_name : string) (balance : float)
  (user : User) (draws : list Z) (db : Database.t) :
  valid_owner_name owner_name = true ->
  (0 <=? balance)%float = true ->
  (balance <=? float_info_max)%float = true ->
  (role user <> BANKER ->
   bank.create_account (VStr owner_name) (VFloat balance) (VUser user) draws db
   = Some (Raise forbidden, db)) /\
  (role user = BANKER ->
   (forall r db',
      bank.create_account (VStr owner_name) (VFloat balance) (VUser user) draws db
      = Some (r, db') -> db' = db /\ exists e, r = Raise e) /\
   (forall new_id draws',
      draws = new_id :: draws' ->
      bank.create_account (VStr owner_name) (VFloat balance) (VUser user) draws db
      = Some (Raise lookup_error, db)) /\
   (forall acct,
      Database.create_account acct db = (Raise (NameError "account_num"), db))).
Proof.
  intros Hname Hlo Hhi.
  unfold bank.create_account.
  rewrite (valid_owner_name_accepted _ Hname).
  rewrite (leb_true_ltb_false _ _ Hlo), (leb_true_ltb_false _ _ Hhi).
  cbn [orb]. split.
  - intros Hrole. destruct (role user); [reflexivity|congruence].
  - intros ->. cbn [Role_eqb negb]. split; [|split].
    + intros r db'. apply create_account_loop_raises.
    + intros new_id draws' ->. reflexivity.
    + intros acct. reflexivity.
Qed.

End Creation.

Section CreationExample.

Lemma create_account_outcomes_witness :
  bank.create_account (VStr "Jane Doe") (VFloat 100) (VUser Sample.banker)
    [100005] Sample.db
  = Some (Raise lookup_error, Sample.db).
Proof.
  refine (proj1 (proj2 (proj2 (create_account_outcomes "Jane Doe" 100 Sample.banker
                                 [100005] Sample.db _ _ _) _)) 100005 [] _).
  - vm_compute. reflexivity.
  - vm_compute. reflexivity.
  - vm_compute. reflexivity.
  - reflexivity.
  - reflexivity.
Defined.

End CreationExample.

(** ** Withdrawal followed by deposit *)

Section RoundTrip.


End RoundTrip.

Section RoundTripExample.


End RoundTripExample.

(** ** The request parser *)

Section Parser.
Context `{Urllib}.

Lemma index_empty_split (lines : list string) (i : nat) :
  index_empty lines = Some i ->
  lines = (firstn i lines ++ "" :: skipn (S i) lines)%list /\
  Forall (fun l => l <> "") (firstn i lines).
Proof.
  revert i. induction lines as [|l lines IH]; intros i; cbn; [discriminate|].
  destruct (String.eqb_spec l "") as [->|Hl].
  - intros [= <-]. cbn. split; [reflexivity|constructor].
  - destruct (index_empty lines) as [j|]; cbn; [|discriminate].
    intros [= <-]. destruct (IH j eq_refl) as [Heq Hall]. cbn.
    split; [f_equal; exact Heq|constructor; assumption].
Qed.

Lemma parse_headers_fold (header_lst : list string) (headers headers' : gmap string string) :
  http_utils.parse_headers header_lst headers = Ok headers' ->
  headers' = fold_left add_header header_lst headers /\
  Forall well_formed_header header_lst.
Proof.
  revert headers. induction header_lst as [|h l IH]; intros headers; cbn.
  - intros [= <-]. split; [reflexivity|constructor].
  - assert (Hadd : add_header headers h
                   = let '(field_name, _, field_value) := partition ":" h in
                     <[unquote (strip field_name) := unquote (strip field_value)]>
                       headers) by reflexivity.
    assert (Hwf : well_formed_header h
                  <-> let '(_, sep, field_value) := partition ":" h in
                      sep <> "" /\ field_value <> "") by reflexivity.
    destruct (partition ":" h) as [[field_name sep] field_value].
    destruct (truthy sep) eqn:Hsep; cbn; [|discriminate].
    destruct (truthy field_value) eqn:Hval; cbn; [|discriminate].
    intros Hrest. destruct (IH _ Hrest) as [Heq Hall].
    rewrite Hadd. split; [exact Heq|]. constructor; [|exact Hall].
    apply Hwf. split; intros ->; cbn in *; discriminate.
Qed.

(** C9, as the code has it. When [parse_request] returns, the lines of
    the request are the request line, the header lines, an empty line
    and the body lines; the resource is the middle word of the request
    line decoded by [unquote_plus], the body is the body lines joined by
    line feeds and decoded by [unquote_plus], and the headers are the
    entries of the header lines in order, names and values decoded by
    [unquote].  [unquote_plus] turns every [+] into a space before it
    percent-decodes; [unquote] only percent-decodes. *)
Theorem parse_request_decoding (request method resource protocol body : string)
  (headers : gmap string string) :
  http_utils.parse_request request = Ok (method, resource, protocol, headers, body) ->
  (forall s, unquote_plus s = unquote (plus_to_space s)) /\
  exists request_line raw_resource header_lst body_lines,
    splitlines request = (request_line :: header_lst ++ "" :: body_lines)%list /\
    split_on " " request_line = [method; raw_resource; protocol] /\
    Forall well_formed_header header_lst /\
    resource = unquote_plus raw_resource /\
    headers = fold_left add_header header_lst ∅ /\
    body = unquote_plus (String.concat LF body_lines).
Proof.
  unfold http_utils.parse_request. intros Hparse.
  split; [reflexivity|].
  destruct (splitlines request) as [|request_line rest] eqn:Hlines; [discriminate|].
  destruct (http_utils.VALID_REQUEST_LINE_PATTERN request_line) eqn:Hvalid;
    cbn [negb] in Hparse; [|discriminate].
  destruct (split_on " " request_line) as [|m [|raw [|pr [|]]]] eqn:Hsplit;
    try discriminate.
  destruct (index_empty (request_line :: rest)) as [crlf|] eqn:Hidx; [|discriminate].
  destruct (http_utils.parse_headers _ ∅) as [hs|] eqn:Hhs; [|discriminate].
  injection Hparse as <- <- <- <- <-.
  destruct (parse_headers_fold _ _ _ Hhs) as [Hfold Hwf].
  destruct (index_empty_split _ _ Hidx) as [Heq _].
  destruct crlf as [|crlf].
  { cbn in Hidx. destruct (String.eqb_spec request_line "") as [->|]; [|].
    - discriminate.
    - destruct (index_empty rest); discriminate. }
  exists request_line, raw, (firstn crlf rest), (skipn (S crlf) rest).
  replace (S crlf - 1)%nat with crlf in * by lia.
  replace (S crlf + 1)%nat with (S (S crlf)) in * by lia.
  cbn [skipn firstn] in *. change (skipn 0 rest) with rest in *.
  split; [injection Heq as Heq; f_equal; exact Heq|].
  split; [exact Hsplit|]. split; [exact Hwf|].
  split; [reflexivity|]. split; [exact Hfold|reflexivity].
Qed.

End Parser.

Section ParserExample.
#[local] Existing Instance Sample.percent.

Lemma parse_request_decoding_witness :
  exists request_line raw_resource header_lst body_lines,
    splitlines Sample.plus_request
    = (request_line :: header_lst ++ "" :: body_lines)%list /\
    split_on " " request_line = ["GET"; raw_resource; "HTTP/1.1"] /\
    Forall well_formed_header header_lst /\
    "/a b" = unquote_plus raw_resource /\
    ({[ "X-Note" := "a+b!" ]} : gmap string string)
    = fold_left add_header header_lst ∅ /\
    "a b!" = unquote_plus (String.concat LF body_lines).
Proof.
  refine (proj2 (parse_request_decoding Sample.plus_request "GET" "/a b"
                   "HTTP/1.1" "a b!" {[ "X-Note" := "a+b!" ]} _)).
  vm_compute. reflexivity.
Defined.

(** C9 fails as stated: the [+] of a header value is kept, while the
    [+] of the path and of the body becomes a space. *)
Lemma header_plus_not_decoded :
  exists headers,
    http_utils.parse_request Sample.plus_request
    = Ok ("GET", "/a b", "HTTP/1.1", headers, "a b!") /\
    headers !! "X-Note" = Some "a+b!" /\
    headers !! "X-Note" <> Some "a b!".
Proof.
  exists {[ "X-Note" := "a+b!" ]}.
  split; [vm_compute; reflexivity|].
  split; [vm_compute; reflexivity|].
  vm_compute. discriminate.
Qed.

End ParserExample.

(** ** Validation before the role check *)

Section ValidationOrder.

(** [create_account] looks at the role only after the name and the
    balance passed their checks: a value that fails a check raises
    [TypeError] or [ValueError] whoever the user is. *)
Lemma create_account_checks_first (owner_name balance user : PyVal)
  (draws : list Z) (db : Database.t) :
  (match owner_name with
   | VStr s => truthy s = false \/ (64 < String.length s)%nat
               \/ bank.OWNER_NAME_PATTERN s = false
   | _ => True
   end) \/
  (match balance with
   | VFloat b => (b <? 0)%float = true \/ (float_info_max <? b)%float = true
   | _ => True
   end) ->
  exists msg,
    bank.create_account owner_name balance user draws db
    = Some (Raise (TypeError msg), db) \/
    bank.create_account owner_name balance user draws db
    = Some (Raise (ValueError msg), db).
Proof.
  intros Hbad. unfold bank.create_account.
  destruct owner_name as [| | |s|]; try (eexists; left; reflexivity).
  destruct (negb (truthy s) || (64 <? String.length s)%nat
            || negb (bank.OWNER_NAME_PATTERN s)) eqn:Hname;
    [eexists; right; reflexivity|].
  apply orb_false_iff in Hname as [Hname Hpat].
  apply orb_false_iff in Hname as [Htruthy Hlen].
  apply negb_false_iff in Htruthy, Hpat. apply Nat.ltb_ge in Hlen.
  destruct balance as [| |b| |]; try (eexists; left; reflexivity).
  destruct ((b <? 0)%float || (float_info_max <? b)%float) eqn:Hb;
    [eexists; right; reflexivity|].
  apply orb_false_iff in Hb as [Hb0 Hbmax].
  exfalso. destruct Hbad as [[Hs|[Hs|Hs]]|[Hs|Hs]]; try congruence. lia.
Qed.

End ValidationOrder.

Section ValidationOrderExample.

(** C10. The code lets one invalid owner name through to the role
    check: the name made of [A] and a line feed is not a name of the
    data model, yet the pattern accepts it, and a customer who supplies
    it with a valid balance gets the forbidden [PermissionError], not a
    validation error. *)
Theorem newline_name_reaches_role_check :
  valid_owner_name ("A" ++ LF) = false /\
  bank.OWNER_NAME_PATTERN ("A" ++ LF) = true /\
  bank.create_account (VStr ("A" ++ LF)) (VFloat 1) (VUser Sample.customer)
    [] Sample.db
  = Some (Raise forbidden, Sample.db).
Proof.
  split; [|split]; vm_compute; reflexivity.
Qed.

End ValidationOrderExample.

(** ** The sign of the stored balance *)

Section Balance.

(** C2. No operation of the ledger changes the store, so every stored
    balance that is [>= 0] stays so.  But a withdrawal of more than the
    balance is not refused by a validation error: for every amount in
    range, and so for every overdraft that the range check lets
    through, [withdraw] raises the [NameError] of the lookup before it
    compares the amount with the balance. *)
Theorem overdraft_not_validated (db : Database.t) (n : Z) (actor : User)
  (amount : float) (notes : string) :
  (forall account_num amount user notes,
     snd (bank.deposit account_num amount notes user db) = db /\
     snd (bank.withdraw account_num amount notes user db) = db) /\
  (forall owner_name balance user draws r db',
     bank.create_account owner_name balance user draws db = Some (r, db') ->
     db' = db) /\
  (balances_nonnegative db ->
   balances_nonnegative
     (snd (bank.withdraw (VInt n) (VFloat amount) notes (VUser actor) db))) /\
  bank.withdraw (VInt n) (VFloat amount) notes (VUser actor) db
  = (if in_range amount then Raise lookup_error
     else Raise (ValueError
       "balance must be non-negative and less than 1.7976931348623157e+308"), db) /\
  (forall msg, lookup_error <> ValueError msg) /\
  (forall msg, lookup_error <> TypeError msg).
Proof.
  split.
  { intros account_num amount0 user notes0.
    split; [apply deposit_keeps_store|apply withdraw_keeps_store]. }
  split.
  { intros owner_name balance user draws r db'. apply create_account_keeps_store. }
  split.
  { intros Hdb. rewrite withdraw_keeps_store. exact Hdb. }
  split; [apply withdraw_reaches_lookup|].
  split; discriminate.
Qed.

End Balance.

(** * Further properties of the code *)

(** ** The ledger and its store *)

Section LedgerStore.

Lemma only_row_changed_refl (account_num : PyVal) (db : Database.t) :
  only_row_changed account_num db db.
Proof.
  unfold only_row_changed. repeat split; try reflexivity.
  intros k r r' Hr Hr'. congruence.
Qed.

(** X1. [deposit] and [withdraw] of an amount that is a number keep
    every stored balance [>= 0], whatever the account number, the notes
    and the user are, and whether the call returns or raises. *)
Theorem transfers_keep_balances (account_num user : PyVal) (amount : float)
  (notes : string) (db : Database.t) :
  balances_nonnegative db -> is_nan amount = false ->
  balances_nonnegative (snd (bank.deposit account_num (VFloat amount) notes user db)) /\
  balances_nonnegative (snd (bank.withdraw account_num (VFloat amount) notes user db)).
Proof.
  intros Hdb _. rewrite deposit_keeps_store, withdraw_keeps_store. auto.
Qed.

(** X3. [deposit] and [withdraw] change at most the row of the account
    they are called on: the table of users, every other account, the
    set of account numbers and the owner of every account stay as they
    were, whatever the arguments and the outcome. *)
Theorem transfers_touch_only_target (account_num user : PyVal) (amount : float)
  (notes : string) (db : Database.t) :
  only_row_changed account_num db
    (snd (bank.deposit account_num (VFloat amount) notes user db)) /\
  only_row_changed account_num db
    (snd (bank.withdraw account_num (VFloat amount) notes user db)).
Proof.
  rewrite deposit_keeps_store, withdraw_keeps_store.
  split; apply only_row_changed_refl.
Qed.


End LedgerStore.

Section LedgerStoreExample.

Lemma sample_balances_nonnegative : balances_nonnegative Sample.db.
Proof.
  intros num row. unfold Sample.db. cbn [Database.accounts].
  rewrite !lookup_insert_Some, lookup_empty.
  intros [[_ <-]|[_ [[_ <-]|[_ [[_ <-]|[_ Hnone]]]]]]; try discriminate;
    eexists; (split; [reflexivity|vm_compute; reflexivity]).
Qed.

Lemma transfers_keep_balances_witness :
  balances_nonnegative
    (snd (bank.deposit (VInt 100001) (VFloat 50) "" (VUser Sample.banker) Sample.db)) /\
  balances_nonnegative
    (snd (bank.withdraw (VInt 100001) (VFloat 50) "" (VUser Sample.banker) Sample.db)).
Proof.
  refine (transfers_keep_balances (VInt 100001) (VUser Sample.banker) 50 ""
            Sample.db sample_balances_nonnegative _).
  vm_compute. reflexivity.
Defined.


End LedgerStoreExample.

(** ** Query strings *)

Section QueryParameters.
Context `{Urllib}.

Lemma partition_found (sep : ascii) (s : string) :
  truthy (snd (fst (partition sep s))) = occurs sep s.
Proof.
  unfold occurs. induction s as [|c s IH]; [reflexivity|].
  cbn. destruct (Ascii.eqb c sep); [reflexivity|].
  destruct (partition sep s) as [[before found] after]. exact IH.
Qed.

Lemma partition_absent (sep : ascii) (key val : string) :
  occurs sep key = false ->
  partition sep (key ++ String sep val) = (key, String sep "", val).
Proof.
  unfold occurs. induction key as [|c key IH];
    simpl.
  - intros _. rewrite Ascii.eqb_refl. reflexivity.
  - intros Hc. apply orb_false_iff in Hc as [Hc Hkey].
    rewrite Hc, (IH Hkey). reflexivity.
Qed.

Lemma split_on_nonempty (sep : ascii) (s : string) : split_on sep s <> [].
Proof.
  destruct s as [|c s]; cbn; [discriminate|].
  destruct (Ascii.eqb c sep); [discriminate|].
  destruct (split_on sep s); discriminate.
Qed.

Lemma split_on_app (sep : ascii) (a b : string) :
  split_on sep (a ++ String sep b) = (split_on sep a ++ split_on sep b)%list.
Proof.
  induction a as [|c a IH]; simpl.
  - rewrite Ascii.eqb_refl. reflexivity.
  - destruct (Ascii.eqb c sep); [rewrite IH; reflexivity|].
    rewrite IH. pose proof (split_on_nonempty sep a) as Hne.
    destruct (split_on sep a) as [|h t]; [congruence|reflexivity].
Qed.

Lemma split_on_absent (sep : ascii) (s : string) :
  occurs sep s = false -> split_on sep s = [s].
Proof.
  unfold occurs. induction s as [|c s IH]; cbn; [reflexivity|].
  intros Hc. apply orb_false_iff in Hc as [Hc Hs].
  rewrite Hc, (IH Hs). reflexivity.
Qed.

Lemma occurs_app (c : ascii) (a b : string) :
  occurs c (a ++ b) = occurs c a || occurs c b.
Proof.
  unfold occurs. induction a as [|x a IH]; simpl; [reflexivity|].
  rewrite IH. apply orb_assoc.
Qed.

Lemma convert_params_ok (params : list string) (result : gmap string string) :
  (exists d, http_utils.convert_params params result = Ok d)
  <-> forallb (occurs "=") params = true.
Proof.
  revert result. induction params as [|p params IH]; intros result; cbn.
  - split; eauto.
  - pose proof (partition_found "=" p) as Hp.
    destruct (partition "=" p) as [[param sep] value]. cbn in Hp.
    rewrite <- Hp. destruct (truthy sep); cbn.
    + apply IH.
    + split; [intros [d Hd]; discriminate|discriminate].
Qed.

Lemma convert_params_raise (params : list string) (result : gmap string string)
  (e : PyExn) :
  http_utils.convert_params params result = Raise e ->
  exists err, e = HttpError err /\ code err = 400.
Proof.
  revert result. induction params as [|p params IH]; intros result; cbn;
    [discriminate|].
  destruct (partition "=" p) as [[param sep] value].
  destruct (truthy sep); cbn.
  - apply IH.
  - intros [= <-]. eexists. split; reflexivity.
Qed.

Lemma convert_params_last (params : list string) (key val : string)
  (result d : gmap string string) :
  occurs "=" key = false ->
  http_utils.convert_params (params ++ [(key ++ "=" ++ val)%string])%list result = Ok d ->
  d !! unquote_plus key = Some (unquote_plus val).
Proof.
  intros Hkey. revert result. induction params as [|p params IH]; intros result.
  - cbn [app http_utils.convert_params].
    change (key ++ "=" ++ val) with (key ++ String "=" val).
    rewrite (partition_absent _ _ _ Hkey). cbn.
    intros [= <-]. apply lookup_insert_eq.
  - cbn [app http_utils.convert_params].
    destruct (partition "=" p) as [[param sep] value].
    destruct (truthy sep); cbn; [apply IH|discriminate].
Qed.

(** X8. [convert_query_params_to_dictionary] returns a dictionary
    exactly when the query is not empty and each of its pieces between
    [&] has an [=] in it; in every other case it raises [BadRequest],
    whose code is 400.  So an empty piece, as in [a=1&&b=2] or after a
    trailing [&], makes the whole query a bad request. *)
Theorem query_dictionary_outcomes (query : string) :
  ((exists params, http_utils.convert_query_params_to_dictionary query = Ok params)
   <-> query <> "" /\ forallb (occurs "=") (split_on "&" query) = true) /\
  (forall e, http_utils.convert_query_params_to_dictionary query = Raise e ->
             exists err, e = HttpError err /\ code err = 400) /\
  (forall before after,
     query = before ++ "&&" ++ after \/ query = before ++ "&" ->
     exists err, http_utils.convert_query_params_to_dictionary query
                 = Raise (HttpError err) /\ code err = 400).
Proof.
  unfold http_utils.convert_query_params_to_dictionary.
  assert (Hraise : forall e,
    (if negb (truthy query)
     then Raise (HttpError (http_responses.BadRequest (Some "No query to process.") []))
     else http_utils.convert_params (split_on "&" query) ∅) = Raise e ->
    exists err, e = HttpError err /\ code err = 400).
  { intros e. destruct (truthy query); cbn.
    - apply convert_params_raise.
    - intros [= <-]. eexists. split; reflexivity. }
  assert (Hok :
    (exists params,
      (if negb (truthy query)
       then Raise (HttpError (http_responses.BadRequest (Some "No query to process.") []))
       else http_utils.convert_params (split_on "&" query) ∅) = Ok params)
    <-> query <> "" /\ forallb (occurs "=") (split_on "&" query) = true).
  { unfold truthy. destruct (String.eqb_spec query "") as [->|Hq]; cbn.
    - split; [intros [p Hp]; discriminate|intros [Hq _]; congruence].
    - rewrite convert_params_ok. tauto. }
  split; [exact Hok|]. split; [exact Hraise|].
  intros before after Hshape.
  destruct (if negb (truthy query) then _ else _) as [params|e] eqn:Hres.
  - exfalso. destruct (proj1 Hok (ex_intro _ params eq_refl)) as [_ Hall].
    destruct Hshape as [-> | ->].
    + change (before ++ "&&" ++ after) with (before ++ String "&" (String "&" after))
        in Hall.
      rewrite split_on_app in Hall. cbn in Hall.
      rewrite forallb_app in Hall. cbn in Hall.
      rewrite andb_false_r in Hall. discriminate.
    + change (before ++ "&") with (before ++ String "&" "") in Hall.
      rewrite split_on_app in Hall. cbn in Hall.
      rewrite forallb_app in Hall. cbn in Hall.
      rewrite andb_false_r in Hall. discriminate.
  - destruct (Hraise e eq_refl) as (err & -> & Hcode). eauto.
Qed.

(** X9. [partition] cuts a parameter at its first [=] and a later
    parameter replaces an earlier one of the same decoded name: the
    query [key=val] alone gives the dictionary with the one entry of the
    decoded name and value, and in the dictionary of any query that ends
    in [&key=val] the decoded name maps to the decoded [val], whatever
    comes before.  The value may itself contain [=]. *)
Theorem query_last_value_wins (key val : string) :
  occurs "=" key = false -> occurs "&" key = false -> occurs "&" val = false ->
  http_utils.convert_query_params_to_dictionary (key ++ "=" ++ val)
  = Ok {[ unquote_plus key := unquote_plus val ]} /\
  (forall earlier params,
     http_utils.convert_query_params_to_dictionary (earlier ++ "&" ++ key ++ "=" ++ val)
     = Ok params ->
     params !! unquote_plus key = Some (unquote_plus val)).
Proof.
  intros Hkey Hamp Hval.
  assert (Hpiece : split_on "&" (key ++ "=" ++ val) = [key ++ "=" ++ val]).
  { apply split_on_absent. rewrite occurs_app, Hamp.
    change ("=" ++ val) with (String "=" val). unfold occurs in *. cbn. exact Hval. }
  unfold http_utils.convert_query_params_to_dictionary. split.
  - assert (Hq : truthy (key ++ "=" ++ val) = true) by (destruct key; reflexivity).
    rewrite Hq, Hpiece. cbn [negb http_utils.convert_params].
    change (key ++ "=" ++ val) with (key ++ String "=" val).
    rewrite (partition_absent _ _ _ Hkey). reflexivity.
  - intros earlier params.
    destruct (truthy (earlier ++ "&" ++ key ++ "=" ++ val)); cbn [negb];
      [|discriminate].
    change (earlier ++ "&" ++ key ++ "=" ++ val)
      with (earlier ++ String "&" (key ++ "=" ++ val)).
    rewrite split_on_app, Hpiece.
    apply convert_params_last. exact Hkey.
Qed.

End QueryParameters.

(** ** The request line *)

Section RequestLine.
Context `{Json} `{Bleach} `{Urllib} `{Cookies} `{Builtins} `{Pages}.

Lemma append_assoc (a b c : string) : (a ++ b) ++ c = a ++ (b ++ c).
Proof.
  induction a as [|x a IH]; [reflexivity|].
  change (String x ((a ++ b) ++ c) = String x (a ++ (b ++ c))). congruence.
Qed.

Lemma length_append (a b : string) :
  String.length (a ++ b) = (String.length a + String.length b)%nat.
Proof.
  induction a as [|x a IH]; [reflexivity|].
  change (S (String.length (a ++ b)) = S (String.length a + String.length b)).
  congruence.
Qed.

Lemma strip_prefix_app (p s : string) : strip_prefix p (p ++ s) = Some s.
Proof.
  induction p as [|c p IH]; simpl; [destruct s; reflexivity|].
  rewrite Ascii.eqb_refl. exact IH.
Qed.

Lemma strip_prefix_Some (p s rest : string) :
  strip_prefix p s = Some rest -> s = p ++ rest.
Proof.
  revert s. induction p as [|c p IH]; intros s; simpl.
  - destruct s; intros [= <-]; reflexivity.
  - destruct s as [|b s]; [discriminate|].
    destruct (Ascii.eqb_spec c b) as [->|]; [|discriminate].
    intros Hs. rewrite (IH _ Hs). reflexivity.
Qed.

Lemma split_on_single (sep : ascii) (s piece : string) :
  split_on sep s = [piece] -> piece = s.
Proof.
  revert piece. induction s as [|c s IH]; intros piece; simpl.
  - intros [= <-]. reflexivity.
  - destruct (Ascii.eqb c sep).
    + intros [= <- Hs]. exfalso. exact (split_on_nonempty _ _ Hs).
    + destruct (split_on sep s) as [|h t] eqn:Hs.
      * exfalso. exact (split_on_nonempty _ _ Hs).
      * intros [= <- ->]. rewrite (IH h eq_refl). reflexivity.
Qed.

Lemma nonspace_no_blank (r : string) :
  forallb http_utils.re_nonspace (list_ascii_of_string r) = true ->
  occurs " " r = false.
Proof.
  unfold occurs. induction r as [|c r IH]; simpl; [reflexivity|].
  intros Hall. apply andb_true_iff in Hall as [Hc Hr].
  rewrite (IH Hr), orb_false_r.
  destruct (Ascii.eqb_spec c " ") as [->|]; [discriminate Hc|reflexivity].
Qed.

Lemma skip_nonspace_run (s : string) :
  exists r, s = r ++ http_utils.skip_nonspace s /\
            forallb http_utils.re_nonspace (list_ascii_of_string r) = true.
Proof.
  induction s as [|c s (r & Hr & Hall)]; simpl.
  - exists "". split; reflexivity.
  - destruct (http_utils.re_nonspace c) eqn:Hc.
    + exists (String c r). split.
      * change (String c s = String c (r ++ http_utils.skip_nonspace s)).
        congruence.
      * simpl. rewrite Hc, Hall. reflexivity.
    + exists "". split; reflexivity.
Qed.

Lemma skip_nonspace_blank (r tail : string) :
  forallb http_utils.re_nonspace (list_ascii_of_string r) = true ->
  http_utils.skip_nonspace (r ++ String " " tail) = String " " tail.
Proof.
  induction r as [|c r IH]; simpl; [reflexivity|].
  intros Hall. apply andb_true_iff in Hall as [Hc Hr]. rewrite Hc. exact (IH Hr).
Qed.

Lemma methods_no_blank (method : string) :
  In method http_utils.request_methods -> occurs " " method = false.
Proof.
  unfold http_utils.request_methods. simpl.
  intros Hin. repeat (destruct Hin as [<-|Hin]; [reflexivity|]). destruct Hin.
Qed.

(** The shape of a line that the pattern of the request line matches. *)
Lemma request_line_shape (line : string) :
  http_utils.VALID_REQUEST_LINE_PATTERN line = true ->
  exists method r version,
    In method http_utils.request_methods /\
    r <> "" /\ forallb http_utils.re_nonspace (list_ascii_of_string r) = true /\
    http_utils.match_version version = true /\
    line = method ++ " " ++ r ++ " HTTP/" ++ version.
Proof.
  unfold http_utils.VALID_REQUEST_LINE_PATTERN. intros Hv.
  apply existsb_exists in Hv as (method & Hin & Hm).
  destruct (strip_prefix (method ++ " ") line) as [rest|] eqn:Hrest; [|discriminate].
  apply andb_true_iff in Hm as [Hrun Hm].
  destruct (strip_prefix " HTTP/" (http_utils.skip_nonspace rest)) as [version|]
    eqn:Hversion; [|discriminate].
  destruct (skip_nonspace_run rest) as (r & Hr & Hall).
  apply strip_prefix_Some in Hrest, Hversion.
  exists method, r, version. split; [exact Hin|]. split.
  - intros ->. change (rest = http_utils.skip_nonspace rest) in Hr.
    rewrite <- Hr, String.eqb_refl in Hrun. discriminate.
  - split; [exact Hall|]. split; [exact Hm|].
    rewrite Hrest, Hr, Hversion.
    rewrite !append_assoc. reflexivity.
Qed.

Lemma request_line_split (method r tail : string) :
  In method http_utils.request_methods ->
  forallb http_utils.re_nonspace (list_ascii_of_string r) = true ->
  split_on " " (method ++ " " ++ r ++ " HTTP/" ++ tail)
  = method :: r :: split_on " " ("HTTP/" ++ tail).
Proof.
  intros Hin Hall.
  change (method ++ " " ++ r ++ " HTTP/" ++ tail)
    with (method ++ String " " (r ++ String " " ("HTTP/" ++ tail))).
  rewrite split_on_app, (split_on_absent _ _ (methods_no_blank _ Hin)).
  rewrite split_on_app, (split_on_absent _ _ (nonspace_no_blank _ Hall)).
  reflexivity.
Qed.

(** X10. What [parse_request] returns starts with one of the eight
    methods of the pattern, the resource is the decoding by
    [unquote_plus] of a non-empty run of characters that are not ASCII
    white space, and the protocol is [HTTP/] followed by a version that
    the pattern accepts. *)
Theorem parsed_request_line (request method resource protocol body : string)
  (headers : gmap string string) :
  http_utils.parse_request request = Ok (method, resource, protocol, headers, body) ->
  In method http_utils.request_methods /\
  (exists r, resource = unquote_plus r /\ r <> "" /\
             forallb http_utils.re_nonspace (list_ascii_of_string r) = true) /\
  (exists version, protocol = "HTTP/" ++ version /\
                   http_utils.match_version version = true).
Proof.
  unfold http_utils.parse_request. intros Hparse.
  destruct (splitlines request) as [|request_line rest] eqn:Hlines; [discriminate|].
  destruct (http_utils.VALID_REQUEST_LINE_PATTERN request_line) eqn:Hvalid;
    cbn [negb] in Hparse; [|discriminate].
  destruct (request_line_shape _ Hvalid) as (m & r & version & Hin & Hr & Hall & Hv & ->).
  rewrite (request_line_split _ _ _ Hin Hall) in Hparse.
  destruct (split_on " " ("HTTP/" ++ version)) as [|pr [|]] eqn:Hsplit;
    try discriminate.
  apply split_on_single in Hsplit. subst pr.
  destruct (index_empty _) as [crlf|]; [|discriminate].
  destruct (http_utils.parse_headers _ ∅) as [hs|]; [|discriminate].
  injection Hparse as <- <- <- <- <-.
  split; [exact Hin|]. split; [exists r; auto|]. exists version. auto.
Qed.

(** X11. A request line whose version has a blank where the pattern has
    its unescaped dot, as in [GET / HTTP/1 1], matches the pattern and
    then splits into four words: [parse_request] raises the [ValueError]
    of the unpacking, which is not an [HttpErrorResponse], so the turn
    of [main] sends no response and the exception leaves [main], with
    the store and the sessions as they were. *)
Theorem blank_in_version_leaves_main (client_connection : N)
  (request method r version : string) (rest : list string)
  (amb : Ambient) (st : server.Main) (w : server.t) :
  In method http_utils.request_methods ->
  r <> "" -> forallb http_utils.re_nonspace (list_ascii_of_string r) = true ->
  In version ["1 0"; "1 1"; "2 0"] ->
  splitlines request = (method ++ " " ++ r ++ " HTTP/" ++ version) :: rest ->
  (server.count st + 1 < 10)%Z ->
  (server.start_time st =? server.start_time st + 900)%float = false ->
  let unpacking := ValueError "too many values to unpack (expected 3)" in
  http_utils.parse_request request = Raise unpacking /\
  exists st',
    server.main_iteration client_connection request amb st w
    = Some (Raise unpacking, st', w) /\
    sent_status (server.main_iteration client_connection request amb st w) = None.
Proof.
  intros Hin Hr Hall Hversion Hlines Hcount Hclock unpacking.
  assert (Hparse : http_utils.parse_request request = Raise unpacking).
  { unfold http_utils.parse_request. rewrite Hlines.
    assert (Hvalid : http_utils.VALID_REQUEST_LINE_PATTERN
                       (method ++ " " ++ r ++ " HTTP/" ++ version) = true).
    { unfold http_utils.VALID_REQUEST_LINE_PATTERN.
      apply existsb_exists. exists method. split; [exact Hin|].
      change (method ++ " " ++ r ++ " HTTP/" ++ version)
        with (method ++ " " ++ (r ++ String " " ("HTTP/" ++ version))).
      rewrite <- append_assoc, strip_prefix_app.
      rewrite (skip_nonspace_blank _ _ Hall).
      apply andb_true_iff. split.
      - apply negb_true_iff. apply String.eqb_neq. intros Heq.
        apply (f_equal String.length) in Heq.
        rewrite length_append in Heq.
        destruct r; [congruence|]. simpl in Heq. lia.
      - simpl in Hversion.
        destruct Hversion as [<-|[<-|[<-|[]]]]; reflexivity. }
    rewrite Hvalid. cbn [negb].
    rewrite (request_line_split _ _ _ Hin Hall).
    simpl in Hversion.
    destruct Hversion as [<-|[<-|[<-|[]]]]; reflexivity. }
  split; [exact Hparse|].
  unfold server.main_iteration, server.dispatch.
  rewrite Hclock, lookup_insert_eq, Hparse.
  destruct (Z.leb_spec 10 (server.count st + 1)) as [Hle|_]; [lia|].
  eexists. split; reflexivity.
Qed.


End RequestLine.

(** ** Sessions from login to logout *)

Section SessionStore.
Context `{Cookies}.

(** The removal of the session that the cookie of a request names, as
    [create_session] and [delete_session] do it. *)
Lemma known_session_removed (cookie : gmap string Morsel)
  (self : http_session_manager.t) :
  let sessions' :=
    if http_session_manager.known_session cookie self
    then delete (default "" (value <$> cookie !! http_session_manager._SESSION_ID))
                (http_session_manager._sessions self)
    else http_session_manager._sessions self in
  (forall m, cookie !! http_session_manager._SESSION_ID = Some m ->
             sessions' !! value m = None) /\
  (forall tok, (forall m, cookie !! http_session_manager._SESSION_ID = Some m ->
                          value m <> tok) ->
               sessions' !! tok = http_session_manager._sessions self !! tok).
Proof.
  unfold http_session_manager.known_session.
  destruct (cookie !! http_session_manager._SESSION_ID) as [m|]; cbn.
  - destruct (bool_decide_reflect
                (is_Some (http_session_manager._sessions self !! value m)))
      as [Hin|Hout].
    + split.
      * intros ? [= <-]. apply lookup_delete_eq.
      * intros tok Htok. apply lookup_delete_ne. exact (Htok m eq_refl).
    + split; [|reflexivity].
      intros ? [= <-]. apply eq_None_not_Some. exact Hout.
  - split; [discriminate|reflexivity].
Qed.

(** X13. [create_session] stores the session under the new identifier
    with an expiration one hour after the clock reading, writes the
    snapshot, and returns a cookie with that identifier, that
    expiration and the path [/].  The token that the cookie of the
    login request names is unknown afterwards, every other session is
    kept, and [authenticate] on a later request that carries the new
    identifier returns the user for as long as the expiration is not
    below the clock. *)
Theorem created_session_authenticates (self : http_session_manager.t)
  (session_id : string) (now : float) (user : User)
  (headers : gmap string string) :
  (forall raw, headers !! "Cookie" = Some raw ->
               exists old, SimpleCookie_load raw = Ok old) ->
  let expiration := (now + 3600)%float in
  exists cookie self1,
    http_session_manager.create_session session_id now user headers self
    = (Ok cookie, self1) /\
    cookie !! http_session_manager._SESSION_ID
    = Some (mkMorsel session_id (Some (VFloat expiration)) (Some "/")) /\
    http_session_manager._sessions self1 !! session_id
    = Some (http_session_manager.mkSession user expiration) /\
    http_session_manager.session_file self1
    = Some (http_session_manager._sessions self1) /\
    (forall raw old m,
       headers !! "Cookie" = Some raw -> SimpleCookie_load raw = Ok old ->
       old !! http_session_manager._SESSION_ID = Some m -> value m <> session_id ->
       http_session_manager._sessions self1 !! value m = None) /\
    (forall tok,
       tok <> session_id ->
       (forall raw old m,
          headers !! "Cookie" = Some raw -> SimpleCookie_load raw = Ok old ->
          old !! http_session_manager._SESSION_ID = Some m -> value m <> tok) ->
       http_session_manager._sessions self1 !! tok
       = http_session_manager._sessions self !! tok) /\
    (forall later headers' raw' cookie' m',
       headers' !! "Cookie" = Some raw' -> SimpleCookie_load raw' = Ok cookie' ->
       cookie' !! http_session_manager._SESSION_ID = Some m' ->
       value m' = session_id ->
       (expiration <? later)%float = false ->
       http_session_manager.authenticate later headers' self1 = (Ok user, self1)).
Proof.
  intros Hloads expiration.
  assert (Hauth : forall sessions later headers' raw' cookie' m',
    sessions !! session_id = Some (http_session_manager.mkSession user expiration) ->
    headers' !! "Cookie" = Some raw' -> SimpleCookie_load raw' = Ok cookie' ->
    cookie' !! http_session_manager._SESSION_ID = Some m' ->
    value m' = session_id ->
    (expiration <? later)%float = false ->
    http_session_manager.authenticate later headers'
      (http_session_manager.mkManager sessions (Some sessions))
    = (Ok user, http_session_manager.mkManager sessions (Some sessions))).
  { intros sessions later headers' raw' cookie' m' Hs Hh Hl Hm Hv Hexp.
    unfold http_session_manager.authenticate, bind, lift_result.
    rewrite Hh, Hl, Hm, Hv. cbn. rewrite Hs. cbn.
    fold expiration. rewrite Hexp. reflexivity. }
  assert (Hcookie :
    cookie_set_path http_session_manager._SESSION_ID "/"
      (cookie_set_expires http_session_manager._SESSION_ID (VFloat expiration)
         (cookie_set http_session_manager._SESSION_ID session_id ∅))
    !! http_session_manager._SESSION_ID
    = Some (mkMorsel session_id (Some (VFloat expiration)) (Some "/"))).
  { unfold cookie_set_path, cookie_set_expires, cookie_set.
    rewrite lookup_empty, !lookup_alter_eq, lookup_insert_eq. reflexivity. }
  unfold http_session_manager.create_session.
  destruct (headers !! "Cookie") as [raw|] eqn:Hraw.
  - destruct (Hloads raw eq_refl) as [old Hold].
    unfold bind, lift_result, http_session_manager._write_sessions, ret.
    rewrite Hold.
    destruct (known_session_removed old self) as [Hgone Hkept].
    destruct (http_session_manager.known_session old self); cbn in *;
      (eexists _, _; split; [reflexivity|]; split; [exact Hcookie|];
       split; [cbn; apply lookup_insert_eq|]; split; [reflexivity|];
       split; [|split]).
    + intros raw0 old0 m [= <-] Hl Hm Hne. rewrite Hold in Hl.
      injection Hl as <-. cbn. rewrite lookup_insert_ne by congruence.
      exact (Hgone m Hm).
    + intros tok Htok Hother. cbn. rewrite lookup_insert_ne by congruence.
      apply Hkept. intros m Hm. exact (Hother raw old m eq_refl Hold Hm).
    + intros later headers' raw' cookie' m'. apply Hauth. apply lookup_insert_eq.
    + intros raw0 old0 m [= <-] Hl Hm Hne. rewrite Hold in Hl.
      injection Hl as <-. cbn. rewrite lookup_insert_ne by congruence.
      exact (Hgone m Hm).
    + intros tok Htok Hother. cbn. rewrite lookup_insert_ne by congruence.
      apply Hkept. intros m Hm. exact (Hother raw old m eq_refl Hold Hm).
    + intros later headers' raw' cookie' m'. apply Hauth. apply lookup_insert_eq.
  - unfold bind, ret, http_session_manager._write_sessions. cbn.
    eexists _, _. split; [reflexivity|]. split; [exact Hcookie|].
    split; [cbn; apply lookup_insert_eq|]. split; [reflexivity|].
    split; [discriminate|]. split.
    + intros tok Htok _. cbn. apply lookup_insert_ne. congruence.
    + intros later headers' raw' cookie' m'. apply Hauth. apply lookup_insert_eq.
Qed.


End SessionStore.

(** ** What the handlers do to the store *)

Section ServerStore.
Context `{Json} `{Bleach} `{Urllib} `{Cookies} `{Builtins} `{Pages}.

Lemma keeps_db_ret {A} (a : A) : keeps_db (ret a).
Proof. intros w. reflexivity. Qed.

Lemma keeps_db_raise {A} (e : PyExn) : keeps_db (@raise _ A e).
Proof. intros w. reflexivity. Qed.

Lemma keeps_db_lift_result {A} (r : outcome A) : keeps_db (lift_result r).
Proof. intros w. reflexivity. Qed.

Lemma keeps_db_bind {A B} (c : M server.t A) (k : A -> M server.t B) :
  keeps_db c -> (forall a, keeps_db (k a)) -> keeps_db (bind c k).
Proof.
  intros Hc Hk w. unfold bind. specialize (Hc w).
  destruct (c w) as [[a|e] w1]; cbn in *; [|exact Hc].
  rewrite (Hk a w1). exact Hc.
Qed.

Lemma keeps_db_try_except {A} (c : M server.t A) (handler : PyExn -> option PyExn) :
  keeps_db c -> keeps_db (try_except c handler).
Proof.
  intros Hc w. unfold try_except. specialize (Hc w).
  destruct (c w) as [[a|e] w1]; cbn in *; [exact Hc|].
  destruct (handler e); exact Hc.
Qed.

Lemma keeps_db_on_sessions {A} (c : M http_session_manager.t A) :
  keeps_db (server.on_sessions c).
Proof.
  intros w. unfold server.on_sessions.
  destruct (c (server._session_manager w)). reflexivity.
Qed.

Lemma keeps_db_read {A} (f : Database.t -> outcome A) :
  keeps_db (server.on_db (fun d => (f d, d))).
Proof. intros w. reflexivity. Qed.

Create HintDb keeps_db.
#[local] Hint Resolve keeps_db_ret keeps_db_raise keeps_db_lift_result
  keeps_db_try_except keeps_db_on_sessions keeps_db_read : keeps_db.

Lemma do_get_file_resource_keeps_state (resource : string)
  (headers : gmap string string) (w : server.t) :
  snd (server.do_get_file_resource resource headers w) = w.
Proof.
  unfold server.do_get_file_resource, server.not_found.
  destruct (server.html_file_pattern _); [|reflexivity].
  destruct (html_file _) as [[data|e]|]; reflexivity.
Qed.

Lemma do_get_file_resource_keeps_db (resource : string)
  (headers : gmap string string) :
  keeps_db (server.do_get_file_resource resource headers).
Proof. intros w. rewrite do_get_file_resource_keeps_state. reflexivity. Qed.

Lemma do_get_account_info_keeps_db (amb : Ambient) (resource : string)
  (headers : gmap string string) :
  keeps_db (server.do_get_account_info amb resource headers).
Proof.
  unfold server.do_get_account_info, server.bad_request, server.clean_int.
  apply keeps_db_bind; [auto with keeps_db|]. intros user_token.
  apply keeps_db_bind; [auto with keeps_db|]. intros params.
  destruct (params !! "account_num") as [a|]; [|auto with keeps_db].
  destruct (negb (isdecimal a)); [auto with keeps_db|].
  destruct (int_of_str (clean a)); [|auto with keeps_db].
  apply keeps_db_bind; auto with keeps_db.
Qed.

Lemma do_logout_keeps_db (headers : gmap string string) :
  keeps_db (server.do_logout headers).
Proof.
  unfold server.do_logout. destruct (headers !! "Cookie"); [|auto with keeps_db].
  apply keeps_db_bind; auto with keeps_db.
Qed.

Lemma do_login_keeps_db (amb : Ambient) (headers : gmap string string)
  (request_body : string) :
  keeps_db (server.do_login amb headers request_body).
Proof.
  unfold server.do_login, server.bad_request.
  apply keeps_db_bind; [auto with keeps_db|]. intros params.
  destruct (params !! "username") as [u|]; [|auto with keeps_db].
  destruct (params !! "password") as [p|]; [|auto with keeps_db].
  apply keeps_db_bind.
  - apply keeps_db_try_except. apply keeps_db_bind; auto with keeps_db.
  - intros cookie. apply keeps_db_bind; [apply do_get_file_resource_keeps_db|].
    auto with keeps_db.
Qed.

Lemma create_fields_keeps_db (amb : Ambient) (headers : gmap string string)
  (request_body : string) :
  keeps_db (server.create_fields amb headers request_body).
Proof.
  unfold server.create_fields, server.bad_request.
  apply keeps_db_bind; [auto with keeps_db|]. intros user_token.
  apply keeps_db_bind; [auto with keeps_db|]. intros params.
  destruct (params !! "owner_name") as [o|]; [|auto with keeps_db].
  destruct (params !! "balance") as [b|]; [|auto with keeps_db].
  destruct (float_of_str b); auto with keeps_db.
Qed.

Lemma do_create_account_keeps_db (amb : Ambient) (headers : gmap string string)
  (request_body : string) (w w' : server.t) (r : outcome http_responses.OK) :
  server.do_create_account amb headers request_body w = Some (r, w') ->
  server.db w' = server.db w.
Proof.
  unfold server.do_create_account.
  pose proof (create_fields_keeps_db amb headers request_body w) as Hf.
  destruct (server.create_fields amb headers request_body w)
    as [[[[owner_name balance] user_token]|e] w1]; cbn in Hf.
  - destruct (bank.create_account _ _ _ _ _) as [[r0 d]|] eqn:Hbank; [|discriminate].
    apply create_account_keeps_store in Hbank. subst d.
    intros [= Heq].
    match type of Heq with
    | try_except ?c _ ?w0 = _ =>
        assert (Hk : keeps_db (try_except c server.bank_errors))
          by (apply keeps_db_try_except; destruct r0 as [[acct|]|e];
              auto with keeps_db);
        specialize (Hk w0)
    end.
    rewrite Heq in Hk. cbn in Hk. congruence.
  - intros [= <- <-]. exact Hf.
Qed.

(** A handler of [/deposit] or [/withdraw] whose authentication raises
    stops there. *)
Lemma transfer_needs_session {A} (amb : Ambient) (headers : gmap string string)
  (k : User -> M server.t A) (w : server.t) :
  server.db (snd (bind (server.on_sessions
                          (http_session_manager.authenticate (time_time amb) headers))
                       k w)) = server.db w \/
  exists user wm,
    server.on_sessions (http_session_manager.authenticate (time_time amb) headers) w
    = (Ok user, wm).
Proof.
  unfold bind.
  pose proof (keeps_db_on_sessions
                (http_session_manager.authenticate (time_time amb) headers) w) as Hs.
  destruct (server.on_sessions _ w) as [[user|e] wm]; [right; eauto|left; exact Hs].
Qed.

(** X15. Whatever a connection sends, the turn of [main] that serves it
    leaves the store of accounts and users as it was, unless the request
    is a [POST] of [/deposit] or [/withdraw] that [authenticate]
    accepts: no other resource or method writes to the store, and
    nothing is written without a live session. *)
Theorem store_written_only_by_transfers (client_connection : N) (request : string)
  (amb : Ambient) (st st' : server.Main) (w w' : server.t)
  (r : outcome http_responses.Response) :
  server.main_iteration client_connection request amb st w = Some (r, st', w') ->
  server.db w' = server.db w \/
  exists resource protocol headers body user wm,
    http_utils.parse_request request = Ok ("POST", resource, protocol, headers, body) /\
    (resource = "/deposit" \/ resource = "/withdraw") /\
    server.on_sessions (http_session_manager.authenticate (time_time amb) headers) w
    = (Ok user, wm).
Proof.
  unfold server.main_iteration.
  destruct (_ !! client_connection) as [n|]; [|intros [= _ _ <-]; left; reflexivity].
  destruct (10 <=? n)%Z; [intros [= _ _ <-]; left; reflexivity|].
  assert (Hd : forall r0 w0, server.dispatch amb request w = Some (r0, w0) ->
    server.db w0 = server.db w \/
    exists resource protocol headers body user wm,
      http_utils.parse_request request = Ok ("POST", resource, protocol, headers, body) /\
      (resource = "/deposit" \/ resource = "/withdraw") /\
      server.on_sessions (http_session_manager.authenticate (time_time amb) headers) w
      = (Ok user, wm)).
  { intros r0 w0. unfold server.dispatch.
    destruct (http_utils.parse_request request)
      as [[[[[method resource] protocol] headers] body]|e] eqn:Hparse;
      [|intros [= _ <-]; left; reflexivity].
    destruct (String.eqb_spec method "GET") as [->|_].
    { assert (Hget : keeps_db (server.handle_get amb resource headers)).
      { unfold server.handle_get.
        destruct (bool_decide _); [apply do_get_account_info_keeps_db|].
        destruct (String.eqb resource "/logout");
          [apply do_logout_keeps_db|apply do_get_file_resource_keeps_db]. }
      specialize (Hget w).
      destruct (server.handle_get amb resource headers w) as [[ok|e] w1];
        cbn in *; intros [= _ <-]; left; exact Hget. }
    destruct (String.eqb_spec method "POST") as [->|_];
      [|intros [= _ <-]; left; reflexivity].
    assert (Hpost : forall r1 w1,
      server.handle_post amb resource headers body w = Some (r1, w1) ->
      server.db w1 = server.db w \/
      ((resource = "/deposit" \/ resource = "/withdraw") /\
       exists user wm,
         server.on_sessions
           (http_session_manager.authenticate (time_time amb) headers) w
         = (Ok user, wm))).
    { intros r1 w1. unfold server.handle_post, liftP.
      destruct (String.eqb_spec resource "/createaccount") as [_|_].
      { intros Hc. left. exact (do_create_account_keeps_db _ _ _ _ _ _ Hc). }
      destruct (String.eqb_spec resource "/deposit") as [->|_].
      { intros [= Hc]. unfold server.do_deposit in Hc.
        destruct (transfer_needs_session amb headers
                    (fun user_token =>
                       server.transfer_fields body (fun account_num amount notes =>
                         try_except
                           (bind (server.on_db (bank.deposit (VInt account_num)
                                    (VFloat amount) notes (VUser user_token)))
                                 (fun acct => ret (server.account_json acct)))
                           server.bank_errors)) w) as [Hkeep|Hauth].
        - left. rewrite Hc in Hkeep. exact Hkeep.
        - right. split; [left; reflexivity|exact Hauth]. }
      destruct (String.eqb_spec resource "/withdraw") as [->|_].
      { intros [= Hc]. unfold server.do_withdraw in Hc.
        destruct (transfer_needs_session amb headers
                    (fun user_token =>
                       server.transfer_fields body (fun account_num amount notes =>
                         try_except
                           (bind (server.on_db (bank.withdraw (VInt account_num)
                                    (VFloat amount) notes (VUser user_token)))
                                 (fun acct => ret (server.account_json acct)))
                           server.bank_errors)) w) as [Hkeep|Hauth].
        - left. rewrite Hc in Hkeep. exact Hkeep.
        - right. split; [right; reflexivity|exact Hauth]. }
      destruct (String.eqb_spec resource "/login") as [_|_].
      { intros [= Hc]. left.
        pose proof (do_login_keeps_db amb headers body w) as Hl.
        rewrite Hc in Hl. exact Hl. }
      intros [= _ <-]. left. reflexivity. }
    destruct (server.handle_post amb resource headers body w) as [[[ok|e] w1]|];
      cbn; [| |discriminate].
    - intros [= _ <-]. destruct (Hpost _ _ eq_refl) as [Hk|[Hres (user & wm & Ha)]];
        [left; exact Hk|right; eauto 10].
    - intros [= _ <-]. destruct (Hpost _ _ eq_refl) as [Hk|[Hres (user & wm & Ha)]];
        [left; exact Hk|right; eauto 10]. }
  destruct (server.dispatch amb request w) as [[[resp|e] w0]|]; [| |discriminate].
  - intros [= _ _ <-]. exact (Hd _ _ eq_refl).
  - destruct e; intros [= _ _ <-]; exact (Hd _ _ eq_refl).
Qed.

End ServerStore.

(** ** The loop of [main] and the handlers of forms *)

Section ServerLoop.
Context `{Json} `{Bleach} `{Urllib} `{Cookies} `{Builtins} `{Pages}.

Lemma main_iteration_sent (client_connection : N) (request : string)
  (amb : Ambient) (st st' : server.Main) (w w' : server.t)
  (response : http_responses.Response) :
  server.main_iteration client_connection request amb st w
  = Some (Ok response, st', w') ->
  server.count st' = server.count st + 1 /\ server.count st + 1 < 10 /\
  server.start_time st' = server.start_time st /\
  (server.start_time st =? server.start_time st + 900)%float = false.
Proof.
  unfold server.main_iteration.
  destruct (server.start_time st =? server.start_time st + 900)%float.
  { rewrite lookup_empty. discriminate. }
  rewrite lookup_insert_eq.
  destruct (Z.leb_spec 10 (server.count st + 1)) as [|Hlt]; [discriminate|].
  destruct (server.dispatch amb request w) as [[[resp|e] w0]|]; [| |discriminate].
  - intros [= _ <- _]. cbn. auto.
  - destruct e; try discriminate. intros [= _ <- _]. cbn. auto.
Qed.

Lemma main_iteration_limit (client_connection : N) (request : string)
  (amb : Ambient) (st : server.Main) (w : server.t) :
  (server.start_time st =? server.start_time st + 900)%float = false ->
  10 <= server.count st + 1 ->
  exists st', server.main_iteration client_connection request amb st w
              = Some (Raise (Exception "HTTP Error 429 TOO MANY REQUESTS"), st', w).
Proof.
  intros Hclock Hcount. unfold server.main_iteration.
  rewrite Hclock, lookup_insert_eq.
  destruct (Z.leb_spec 10 (server.count st + 1)) as [_|Hlt]; [|lia].
  eexists. reflexivity.
Qed.

Lemma main_loop_bound (connections : list (N * string * Ambient))
  (st : server.Main) (w w' : server.t) (sent : list http_responses.Response)
  (stop : option PyExn) :
  server.main_loop connections st w = Some (sent, stop, w') ->
  (sent = [] \/ Z.of_nat (length sent) + server.count st <= 9) /\
  (stop = None -> length sent = length connections).
Proof.
  revert st w w' sent stop.
  induction connections as [|[[conn request] amb] connections IH];
    intros st w w' sent stop; cbn [server.main_loop].
  - intros [= <- <- _]. auto.
  - destruct (server.main_iteration conn request amb st w)
      as [[[[response|e] st1] w1]|] eqn:Hturn; [| |discriminate].
    + destruct (server.main_loop connections st1 w1) as [[[sent1 stop1] w2]|] eqn:Hrest;
        [|discriminate].
      intros [= <- <- _].
      destruct (main_iteration_sent _ _ _ _ _ _ _ _ Hturn) as (Hc & Hlt & _).
      destruct (IH _ _ _ _ _ Hrest) as [Hb Hn]. split.
      * right. cbn [length]. destruct Hb as [->|Hb]; cbn; lia.
      * intros Hs. cbn [length]. rewrite (Hn Hs). reflexivity.
    + intros [= <- <- _]. split; [left; reflexivity|discriminate].
Qed.

Lemma main_loop_tenth (connections : list (N * string * Ambient))
  (st : server.Main) (w w' : server.t) (sent : list http_responses.Response)
  (stop : option PyExn) :
  server.main_loop connections st w = Some (sent, stop, w') ->
  (server.start_time st =? server.start_time st + 900)%float = false ->
  Z.of_nat (length sent) + server.count st = 9 ->
  (length sent < length connections)%nat ->
  stop = Some (Exception "HTTP Error 429 TOO MANY REQUESTS").
Proof.
  revert st w w' sent stop.
  induction connections as [|[[conn request] amb] connections IH];
    intros st w w' sent stop; cbn [server.main_loop].
  - intros [= <- <- _] _ _ Hlen. cbn in Hlen. lia.
  - intros Hloop Hclock Hnine Hlen.
    destruct (Z.leb_spec 10 (server.count st + 1)) as [Hfull|Hroom].
    + destruct (main_iteration_limit conn request amb st w Hclock Hfull) as [st1 Hturn].
      rewrite Hturn in Hloop. injection Hloop as <- <- _. reflexivity.
    + destruct (server.main_iteration conn request amb st w)
        as [[[[response|e] st1] w1]|] eqn:Hturn; [| |discriminate].
      * destruct (server.main_loop connections st1 w1) as [[[sent1 stop1] w2]|] eqn:Hrest;
          [|discriminate].
        injection Hloop as <- <- _.
        destruct (main_iteration_sent _ _ _ _ _ _ _ _ Hturn) as (Hc & _ & Hs & _).
        apply (IH _ _ _ _ _ Hrest).
        -- rewrite Hs. exact Hclock.
        -- cbn [length] in Hnine. lia.
        -- cbn [length] in Hlen. lia.
      * injection Hloop as <- <- _. cbn in Hnine. lia.
Qed.

(** X16. [count] is never reset and is compared with 10 for every
    client: from its start [main] sends at most nine responses, to all
    clients together.  When nine have been sent, the next connection
    raises the plain [Exception] of the rate check, which is not an
    [HttpErrorResponse]: no 429 response is sent and the exception
    ends [main].  So a list of ten or more connections always ends
    [main] with an exception. *)
Theorem main_answers_at_most_nine (start_time : float)
  (connections : list (N * string * Ambient)) (w w' : server.t)
  (sent : list http_responses.Response) (stop : option PyExn) :
  server.main start_time connections w = Some (sent, stop, w') ->
  (length sent <= 9)%nat /\
  ((10 <= length connections)%nat -> exists e, stop = Some e) /\
  (length sent = 9%nat -> (10 <= length connections)%nat ->
   stop = Some (Exception "HTTP Error 429 TOO MANY REQUESTS")).
Proof.
  unfold server.main. intros Hloop.
  destruct (main_loop_bound _ _ _ _ _ _ Hloop) as [Hb Hn]. cbn in Hb.
  assert (Hlen : (length sent <= 9)%nat) by (destruct Hb as [->|Hb]; cbn; lia).
  split; [exact Hlen|]. split.
  - intros Hten. destruct stop as [e|]; [eauto|].
    specialize (Hn eq_refl). lia.
  - intros Hnine Hten.
    apply (main_loop_tenth _ _ _ _ _ _ Hloop); cbn; [|lia|lia].
    destruct connections as [|[[conn request] amb] connections];
      [cbn in Hten; lia|].
    cbn [server.main_loop] in Hloop.
    destruct (server.main_iteration conn request amb _ w)
      as [[[[response|e] st1] w1]|] eqn:Hturn; [| |discriminate].
    + exact (proj2 (proj2 (proj2 (main_iteration_sent _ _ _ _ _ _ _ _ Hturn)))).
    + injection Hloop as <- _ _. discriminate Hnine.
Qed.

(** X17. A [POST] of [/createaccount] that passes the checks of the
    handler and of [bank.create_account], sent with the session of a
    banker, reaches the search for the first number drawn, which raises
    [NameError].  The exception is caught neither by [bank], nor by
    [do_create_account], nor by [main]: the turn sends no response and
    the exception ends [main]. *)
Theorem create_account_request_leaves_main (client_connection : N)
  (request protocol body owner_name : string) (headers : gmap string string)
  (balance : float) (user : User) (amb : Ambient) (st : server.Main)
  (w w1 : server.t) (new_id : Z) (draws : list Z) :
  http_utils.parse_request request
  = Ok ("POST", "/createaccount", protocol, headers, body) ->
  server.create_fields amb headers body w = (Ok (owner_name, balance, user), w1) ->
  valid_owner_name owner_name = true ->
  (0 <=? balance)%float = true -> (balance <=? float_info_max)%float = true ->
  role user = BANKER ->
  randint amb = new_id :: draws ->
  (server.count st + 1 < 10)%Z ->
  (server.start_time st =? server.start_time st + 900)%float = false ->
  server.handle_post amb "/createaccount" headers body w
  = Some (Raise lookup_error, w1) /\
  exists st',
    server.main_iteration client_connection request amb st w
    = Some (Raise lookup_error, st', w1) /\
    sent_status (server.main_iteration client_connection request amb st w) = None.
Proof.
  intros Hparse Hfields Hname Hlo Hhi Hrole Hdraws Hcount Hclock.
  assert (Hpost : server.handle_post amb "/createaccount" headers body w
                  = Some (Raise lookup_error, w1)).
  { unfold server.handle_post. cbn [String.eqb Ascii.eqb Bool.eqb].
    unfold server.do_create_account. rewrite Hfields.
    unfold bank.create_account.
    rewrite (valid_owner_name_accepted _ Hname).
    rewrite (leb_true_ltb_false _ _ Hlo), (leb_true_ltb_false _ _ Hhi).
    cbn [orb]. rewrite Hrole, Hdraws. cbn.
    destruct w1. reflexivity. }
  split; [exact Hpost|].
  unfold server.main_iteration, server.dispatch.
  rewrite Hclock, lookup_insert_eq, Hparse.
  destruct (Z.leb_spec 10 (server.count st + 1)) as [Hle|_]; [lia|].
  cbn [String.eqb Ascii.eqb Bool.eqb]. rewrite Hpost.
  eexists. split; reflexivity.
Qed.



End ServerLoop.

(** ** Owner names and file names *)

Section OwnerNames.

Lemma skip_class_run (n : nat) (s : string) :
  exists run, s = run ++ bank.skip_class n s /\
              forallb bank.latin_or_space (list_ascii_of_string run) = true /\
              (String.length run <= n)%nat.
Proof.
  revert s. induction n as [|n IH]; intros s.
  - exists "". destruct s; cbn; auto.
  - destruct s as [|c s]; [exists ""; cbn; split; [reflexivity|split; [reflexivity|lia]]|].
    cbn [bank.skip_class]. destruct (bank.latin_or_space c) eqn:Hc.
    + destruct (IH s) as (run & Hrun & Hall & Hlen).
      exists (String c run). split; [|split].
      * change (String c s = String c (run ++ bank.skip_class n s)). congruence.
      * cbn. rewrite Hc, Hall. reflexivity.
      * cbn. lia.
    + exists "". cbn. split; [reflexivity|split; [reflexivity|lia]].
Qed.

Lemma skip_class_stop (n : nat) (run : string) (x : ascii) (rest : string) :
  forallb bank.latin_or_space (list_ascii_of_string run) = true ->
  (String.length run <= n)%nat ->
  bank.latin_or_space x = false ->
  bank.skip_class n (run ++ String x rest) = String x rest.
Proof.
  revert n. induction run as [|c run IH]; intros n Hall Hlen Hx.
  - change ("" ++ String x rest) with (String x rest).
    destruct n; cbn; [reflexivity|]. rewrite Hx. reflexivity.
  - cbn in Hall, Hlen. apply andb_true_iff in Hall as [Hc Hrun].
    destruct n as [|n]; [lia|].
    change (String c run ++ String x rest) with (String c (run ++ String x rest)).
    cbn [bank.skip_class]. rewrite Hc. apply IH; [exact Hrun|lia|exact Hx].
Qed.

Lemma forallb_append (f : ascii -> bool) (a b : string) :
  forallb f (list_ascii_of_string (a ++ b))
  = forallb f (list_ascii_of_string a) && forallb f (list_ascii_of_string b).
Proof.
  induction a as [|c a IH]; [reflexivity|].
  change (String c a ++ b) with (String c (a ++ b)). cbn. rewrite IH.
  apply andb_assoc.
Qed.

Lemma name_test_shape (s : string) :
  negb (truthy s) || (64 <? String.length s)%nat || negb (bank.OWNER_NAME_PATTERN s)
  = false
  <-> valid_owner_name s = true \/
      exists s', s = s' ++ LF /\ valid_owner_name s' = true /\
                 (String.length s' <= 63)%nat.
Proof.
  split.
  - intros Htest.
    apply orb_false_iff in Htest as [Htest Hpat].
    apply orb_false_iff in Htest as [_ Hlen].
    apply negb_false_iff in Hpat. apply Nat.ltb_ge in Hlen.
    destruct s as [|c s]; [discriminate|].
    unfold bank.OWNER_NAME_PATTERN in Hpat.
    apply andb_true_iff in Hpat as [Hc Hrest].
    destruct (skip_class_run 63 s) as (run & Hrun & Hall & Hrunlen).
    apply orb_true_iff in Hrest as [Hrest|Hrest]; apply String.eqb_eq in Hrest;
      rewrite Hrest in Hrun.
    + left. unfold valid_owner_name.
      assert (Hall' : forallb bank.latin_or_space
                        (list_ascii_of_string (String c s)) = true).
      { cbn. rewrite Hc, Hrun, forallb_append, Hall. reflexivity. }
      assert (H1 : (1 <= String.length (String c s))%nat) by (cbn; lia).
      rewrite Hall', (proj2 (Nat.leb_le _ _) H1), (proj2 (Nat.leb_le _ _) Hlen).
      reflexivity.
    + right. exists (String c run).
      assert (Hs : String c s = String c run ++ LF)
        by (change (String c s = String c (run ++ LF)); congruence).
      rewrite Hs, length_append in Hlen. cbn in Hlen.
      split; [exact Hs|]. split.
      * unfold valid_owner_name.
        assert (Hall' : forallb bank.latin_or_space
                          (list_ascii_of_string (String c run)) = true)
          by (cbn; rewrite Hc, Hall; reflexivity).
        assert (H1 : (1 <= String.length (String c run))%nat) by (cbn; lia).
        assert (H64 : (String.length (String c run) <= 64)%nat) by (cbn; lia).
        rewrite Hall', (proj2 (Nat.leb_le _ _) H1), (proj2 (Nat.leb_le _ _) H64).
        reflexivity.
      * cbn. lia.
  - intros [Hvalid|(s' & -> & Hvalid & Hlen)].
    + exact (valid_owner_name_accepted _ Hvalid).
    + unfold valid_owner_name in Hvalid.
      apply andb_true_iff in Hvalid as [Hbounds Hall].
      apply andb_true_iff in Hbounds as [H1 _]. apply Nat.leb_le in H1.
      destruct s' as [|c s']; [cbn in H1; lia|].
      cbn in Hall. apply andb_true_iff in Hall as [Hc Hrun].
      change (String c s' ++ LF) with (String c (s' ++ LF)).
      apply orb_false_iff. split; [apply orb_false_iff; split|].
      * reflexivity.
      * apply Nat.ltb_ge. cbn [String.length]. rewrite length_append.
        cbn in Hlen |- *. lia.
      * apply negb_false_iff. unfold bank.OWNER_NAME_PATTERN. rewrite Hc.
        unfold LF. rewrite skip_class_stop; [reflexivity|exact Hrun| |reflexivity].
        cbn in Hlen. lia.
Qed.

(** X19. The owner names that pass the validation of [create_account]
    are the names of 1 to 64 Latin letters and spaces and, because [$]
    also matches in front of a final line feed, the names of 1 to 63
    such characters followed by one line feed.  Every other string is
    rejected with [ValueError] before the balance and the role are
    looked at, and the store is left alone; an accepted name with a
    balance in range gets a user who is not a banker the forbidden
    [PermissionError]. *)
Theorem accepted_owner_names (s : string) (db : Database.t) (draws : list Z) :
  (~ accepted_owner_name s ->
   forall balance user,
     bank.create_account (VStr s) balance user draws db
     = Some (Raise (ValueError "Invalid owner name"), db)) /\
  (accepted_owner_name s ->
   forall balance user,
     in_range balance = true -> role user <> BANKER ->
     bank.create_account (VStr s) (VFloat balance) (VUser user) draws db
     = Some (Raise forbidden, db)).
Proof.
  pose proof (name_test_shape s) as Hshape. fold (accepted_owner_name s) in Hshape.
  unfold bank.create_account.
  destruct (negb (truthy s) || (64 <? String.length s)%nat
            || negb (bank.OWNER_NAME_PATTERN s)) eqn:Htest.
  - split; [reflexivity|]. intros Hacc. apply Hshape in Hacc. discriminate.
  - split; [intros Hnot; exfalso; apply Hnot, Hshape; reflexivity|].
    intros _ balance user Hrange Hrole. unfold in_range in Hrange.
    apply negb_true_iff in Hrange. rewrite Hrange.
    destruct (role user); [reflexivity|congruence].
Qed.

End OwnerNames.

Section FileResources.
Context `{Json} `{Pages}.

Lemma append_empty (s : string) : s ++ "" = s.
Proof.
  induction s as [|c s IH]; [reflexivity|].
  change (String c (s ++ "") = String c s). congruence.
Qed.

Lemma lower_line_feed (c : ascii) : server.lower c = "010"%char -> c = "010"%char.
Proof.
  destruct c as [[] [] [] [] [] [] [] []]; vm_compute; congruence.
Qed.

Lemma lower_string_append (a b : string) :
  server.lower_string (a ++ b) = server.lower_string a ++ server.lower_string b.
Proof.
  induction a as [|c a IH]; [reflexivity|].
  change (String c a ++ b) with (String c (a ++ b)). cbn. rewrite IH. reflexivity.
Qed.

Lemma lower_string_split (s a b : string) :
  server.lower_string s = a ++ b ->
  exists a' b', s = a' ++ b' /\ server.lower_string a' = a /\
                server.lower_string b' = b.
Proof.
  revert s. induction a as [|x a IH]; intros s.
  - intros Hs. exists "", s. auto.
  - destruct s as [|c s]; [discriminate|].
    change (String x a ++ b) with (String x (a ++ b)). cbn.
    intros [= Hc Hs]. destruct (IH _ Hs) as (a' & b' & -> & Ha & Hb).
    exists (String c a'), b'. cbn. rewrite Hc, Ha. auto.
Qed.

Lemma lower_string_tail (s tail : string) :
  server.lower_string s = tail -> tail = "" \/ tail = LF -> s = tail.
Proof.
  intros Hs [-> | ->].
  - destruct s; [reflexivity|discriminate].
  - destruct s as [|c [|]]; try discriminate. cbn in Hs.
    injection Hs as Hc. rewrite (lower_line_feed _ Hc). reflexivity.
Qed.

(** A file name ends with one of the three extensions, in any case,
    and at most a line feed after it. *)
Lemma extension_at_end_shape (s : string) :
  server.extension_at_end s = true <->
  exists ext tail, s = ext ++ tail /\
                   In (server.lower_string ext) [".html"; ".htm"; ".css"] /\
                   (tail = "" \/ tail = LF).
Proof.
  unfold server.extension_at_end. split.
  - intros He. apply existsb_exists in He as (ext & Hext & He).
    apply existsb_exists in He as (tail & Htail & He).
    apply String.eqb_eq in He.
    destruct (lower_string_split _ _ _ He) as (ext' & tail' & -> & He' & Ht').
    assert (Hshape : tail = "" \/ tail = LF)
      by (cbn in Htail; intuition congruence).
    exists ext', tail'. rewrite He', (lower_string_tail _ _ Ht' Hshape). auto.
  - intros (ext & tail & -> & Hext & Htail).
    apply existsb_exists. exists (server.lower_string ext). split; [exact Hext|].
    apply existsb_exists. exists tail. split.
    + cbn. destruct Htail as [-> | ->]; auto.
    + apply String.eqb_eq. rewrite lower_string_append.
      destruct Htail as [-> | ->]; reflexivity.
Qed.

Lemma extension_later_shape (s : string) :
  server.extension_later s = true <->
  exists q e, s = q ++ e /\ occurs "010" q = false /\
              server.extension_at_end e = true.
Proof.
  split.
  - induction s as [|c s IH]; cbn [server.extension_later].
    + rewrite orb_false_r. intros He. exists "", "". auto.
    + intros He. apply orb_true_iff in He as [He|He].
      * exists "", (String c s). auto.
      * apply andb_true_iff in He as [Hc Hs].
        destruct (IH Hs) as (q & e & -> & Hq & He).
        exists (String c q), e. split; [reflexivity|]. split; [|exact He].
        unfold occurs in *. cbn. rewrite Hq.
        apply negb_true_iff in Hc. rewrite Hc. reflexivity.
  - intros (q & e & -> & Hq & He). induction q as [|c q IH].
    + change ("" ++ e) with e. destruct e; cbn [server.extension_later];
        rewrite He; reflexivity.
    + change (String c q ++ e) with (String c (q ++ e)).
      cbn [server.extension_later]. unfold occurs in Hq. cbn in Hq.
      apply orb_false_iff in Hq as [Hc Hq]. rewrite (IH Hq), Hc.
      apply orb_true_r.
Qed.

Lemma html_file_pattern_shape (filename : string) :
  server.html_file_pattern filename = true <->
  exists p ext tail,
    filename = p ++ ext ++ tail /\ p <> "" /\ occurs "010" p = false /\
    In (server.lower_string ext) [".html"; ".htm"; ".css"] /\
    (tail = "" \/ tail = LF).
Proof.
  unfold server.html_file_pattern. split.
  - destruct filename as [|c s]; [discriminate|].
    intros Hm. apply andb_true_iff in Hm as [Hc Hs].
    apply extension_later_shape in Hs as (q & e & -> & Hq & He).
    apply extension_at_end_shape in He as (ext & tail & -> & Hext & Htail).
    exists (String c q), ext, tail. split; [reflexivity|]. split; [discriminate|].
    split; [|auto]. unfold occurs in *. cbn. rewrite Hq.
    apply negb_true_iff in Hc. rewrite Hc. reflexivity.
  - intros (p & ext & tail & -> & Hp & Hlf & Hext & Htail).
    destruct p as [|c q]; [congruence|].
    change (String c q ++ ext ++ tail) with (String c (q ++ ext ++ tail)).
    unfold occurs in Hlf. cbn in Hlf. apply orb_false_iff in Hlf as [Hc Hq].
    rewrite Hc. cbn [negb andb].
    apply extension_later_shape. exists q, (ext ++ tail).
    split; [reflexivity|]. split; [exact Hq|].
    apply extension_at_end_shape. exists ext, tail. auto.
Qed.

(** X20. [do_get_file_resource] never changes the server.  It drops
    the first character of the resource, whatever it is, and reads the
    file of that name under [html] whenever the name is a non-empty run
    without line feed followed by [.html], [.htm] or [.css] in any
    case: the name is not otherwise restricted, so it may go through
    other directories, as in [/../x.html].  What it raises is
    [NotFound] (404), for a name of another shape or one that is not a
    file, or what [open] and [read] raise on the file, which no [try]
    surrounds.  A page that is served has a name of that shape, or is
    [menu.html] for the resource [/]. *)
Theorem file_resource_outcomes (resource : string) (headers : gmap string string)
  (w : server.t) :
  snd (server.do_get_file_resource resource headers w) = w /\
  (forall e, fst (server.do_get_file_resource resource headers w) = Raise e ->
             (e = HttpError (http_responses.NotFound (Some "Invalid resource.") []) /\
              code (http_responses.NotFound (Some "Invalid resource.") []) = 404) \/
             exists filename,
               server.html_file_pattern filename = true /\
               html_file filename = Some (Raise e)) /\
  (forall c p ext,
     resource = String c (p ++ ext) ->
     p <> "" -> occurs "010" p = false ->
     In (server.lower_string ext) [".html"; ".htm"; ".css"] ->
     server.do_get_file_resource resource headers w
     = (match html_file (p ++ ext) with
        | Some (Ok data) => Ok (http_responses.OK_init data [])
        | Some (Raise e) => Raise e
        | None =>
            Raise (HttpError (http_responses.NotFound (Some "Invalid resource.") []))
        end, w)) /\
  (forall r, fst (server.do_get_file_resource resource headers w) = Ok r ->
     exists filename data,
       html_file filename = Some (Ok data) /\ r = http_responses.OK_init data [] /\
       (resource = "/" /\ filename = "menu.html" \/
        exists c, resource = String c filename) /\
       exists p ext tail,
         filename = p ++ ext ++ tail /\ p <> "" /\ occurs "010" p = false /\
         In (server.lower_string ext) [".html"; ".htm"; ".css"] /\
         (tail = "" \/ tail = LF)).
Proof.
  split; [|split; [|split]].
  - unfold server.do_get_file_resource, server.not_found.
    destruct (server.html_file_pattern _); [|reflexivity].
    destruct (html_file _) as [[data|e]|]; reflexivity.
  - unfold server.do_get_file_resource, server.not_found.
    set (filename := if String.eqb resource "/" then "menu.html"
                     else match resource with
                          | String _ rest => rest
                          | EmptyString => ""
                          end).
    destruct (server.html_file_pattern filename) eqn:Hm;
      [|intros e [= <-]; left; auto].
    destruct (html_file filename) as [[data|e0]|] eqn:Hfile;
      [discriminate| |intros e [= <-]; left; auto].
    intros e [= <-]. right. exists filename. auto.
  - intros c p ext -> Hp Hlf Hext.
    unfold server.do_get_file_resource.
    assert (Hroot : String.eqb (String c (p ++ ext)) "/" = false).
    { apply String.eqb_neq. intros [= _ Hempty].
      destruct p; [congruence|discriminate]. }
    rewrite Hroot.
    assert (Hm : server.html_file_pattern (p ++ ext) = true).
    { apply html_file_pattern_shape. exists p, ext, "".
      split; [|auto]. rewrite append_empty. reflexivity. }
    rewrite Hm. destruct (html_file (p ++ ext)) as [[data|e]|]; reflexivity.
  - intros r. unfold server.do_get_file_resource, server.not_found.
    set (filename := if String.eqb resource "/" then "menu.html"
                     else match resource with
                          | String _ rest => rest
                          | EmptyString => ""
                          end).
    destruct (server.html_file_pattern filename) eqn:Hm; [|discriminate].
    destruct (html_file filename) as [[data|e]|] eqn:Hfile; try discriminate.
    intros [= <-]. exists filename, data.
    split; [exact Hfile|]. split; [reflexivity|]. split.
    + subst filename. destruct (String.eqb_spec resource "/") as [->|_]; [auto|].
      destruct resource as [|c rest]; [discriminate Hm|]. right. eauto.
    + apply html_file_pattern_shape. exact Hm.
Qed.

End FileResources.

(** ** The further properties on the sample server *)

Section FurtherExamples.
#[local] Existing Instance Sample.plain_json.
#[local] Existing Instance Sample.no_bleach.
#[local] Existing Instance Sample.percent.
#[local] Existing Instance Sample.one_cookie.
#[local] Existing Instance Sample.literals.
#[local] Existing Instance Sample.no_pages.

Lemma query_last_value_wins_witness :
  http_utils.convert_query_params_to_dictionary "account_num=2"
  = Ok {[ unquote_plus "account_num" := unquote_plus "2" ]} /\
  (forall earlier params,
     http_utils.convert_query_params_to_dictionary
       (earlier ++ "&" ++ "account_num" ++ "=" ++ "2") = Ok params ->
     params !! unquote_plus "account_num" = Some (unquote_plus "2")).
Proof.
  refine (query_last_value_wins "account_num" "2" _ _ _).
  - reflexivity.
  - reflexivity.
  - reflexivity.
Defined.

Lemma parsed_request_line_witness :
  In "GET" http_utils.request_methods /\
  (exists r, "/a b" = unquote_plus r /\ r <> "" /\
             forallb http_utils.re_nonspace (list_ascii_of_string r) = true) /\
  (exists version, "HTTP/1.1" = "HTTP/" ++ version /\
                   http_utils.match_version version = true).
Proof.
  refine (parsed_request_line Sample.plus_request "GET" "/a b" "HTTP/1.1" "a b!"
            {[ "X-Note" := "a+b!" ]} _).
  vm_compute. reflexivity.
Defined.

Lemma blank_in_version_leaves_main_witness :
  http_utils.parse_request Sample.blank_version_request
  = Raise (ValueError "too many values to unpack (expected 3)") /\
  exists st',
    server.main_iteration 1 Sample.blank_version_request Sample.ambient
      Sample.main_start Sample.world
    = Some (Raise (ValueError "too many values to unpack (expected 3)"), st',
            Sample.world) /\
    sent_status (server.main_iteration 1 Sample.blank_version_request Sample.ambient
                   Sample.main_start Sample.world) = None.
Proof.
  refine (blank_in_version_leaves_main 1 Sample.blank_version_request "GET" "/" "1 1"
            [""] Sample.ambient Sample.main_start Sample.world _ _ _ _ _ _ _).
  - right. left. reflexivity.
  - discriminate.
  - reflexivity.
  - right. left. reflexivity.
  - vm_compute. reflexivity.
  - reflexivity.
  - vm_compute. reflexivity.
Defined.


Lemma created_session_authenticates_witness :
  exists cookie self1,
    http_session_manager.create_session "new" 50 Sample.customer
      Sample.cookie_headers Sample.sessions = (Ok cookie, self1) /\
    http_session_manager._sessions self1 !! "tok" = None /\
    http_session_manager.authenticate 3650 {[ "Cookie" := "SD-SessionID=new" ]} self1
    = (Ok Sample.customer, self1).
Proof.
  destruct (created_session_authenticates Sample.sessions "new" 50 Sample.customer
              Sample.cookie_headers)
    as (cookie & self1 & Hcreate & _ & _ & _ & Hold & _ & Hauth).
  - intros raw Hraw. vm_compute in Hraw. injection Hraw as <-.
    eexists. vm_compute. reflexivity.
  - exists cookie, self1. split; [exact Hcreate|]. split.
    + refine (Hold "SD-SessionID=tok" {[ "SD-SessionID" := mkMorsel "tok" None None ]}
                (mkMorsel "tok" None None) _ _ _ _).
      * vm_compute. reflexivity.
      * vm_compute. reflexivity.
      * vm_compute. reflexivity.
      * discriminate.
    + refine (Hauth 3650%float {[ "Cookie" := "SD-SessionID=new" ]} "SD-SessionID=new"
                {[ "SD-SessionID" := mkMorsel "new" None None ]}
                (mkMorsel "new" None None) _ _ _ _ _).
      * vm_compute. reflexivity.
      * vm_compute. reflexivity.
      * vm_compute. reflexivity.
      * reflexivity.
      * vm_compute. reflexivity.
Defined.


Lemma store_written_only_by_transfers_witness :
  server.db Sample.authenticated = server.db Sample.world \/
  exists resource protocol headers body user wm,
    http_utils.parse_request Sample.negative_deposit_request
    = Ok ("POST", resource, protocol, headers, body) /\
    (resource = "/deposit" \/ resource = "/withdraw") /\
    server.on_sessions
      (http_session_manager.authenticate (time_time Sample.ambient) headers)
      Sample.world
    = (Ok user, wm).
Proof.
  refine (store_written_only_by_transfers 1 Sample.negative_deposit_request
            Sample.ambient Sample.main_start (server.mkMain {[ 1%N := 1 ]} 1 0)
            Sample.world Sample.authenticated
            (Ok (http_responses.RespError
                   (http_responses.BadRequest
                      (Some "amount must be non-negative and less than 1.7976931348623157e+308")
                      [])))
            _).
  vm_compute. reflexivity.
Defined.

Lemma main_answers_at_most_nine_witness :
  (length (repeat (http_responses.RespError
                     (http_responses.NotFound (Some "Invalid resource.") [])) 9)
   <= 9)%nat /\
  ((10 <= length Sample.ten_connections)%nat ->
   exists e, Some (Exception "HTTP Error 429 TOO MANY REQUESTS") = Some e) /\
  (length (repeat (http_responses.RespError
                     (http_responses.NotFound (Some "Invalid resource.") [])) 9)
   = 9%nat ->
   (10 <= length Sample.ten_connections)%nat ->
   Some (Exception "HTTP Error 429 TOO MANY REQUESTS")
   = Some (Exception "HTTP Error 429 TOO MANY REQUESTS")).
Proof.
  refine (main_answers_at_most_nine 0 Sample.ten_connections Sample.world Sample.world
            (repeat (http_responses.RespError
                       (http_responses.NotFound (Some "Invalid resource.") [])) 9)
            (Some (Exception "HTTP Error 429 TOO MANY REQUESTS")) _).
  vm_compute. reflexivity.
Defined.

Lemma create_account_request_leaves_main_witness :
  server.handle_post Sample.drawing "/createaccount" Sample.cookie_headers
    "owner_name=Jane Doe&balance=50" Sample.world
  = Some (Raise lookup_error, Sample.authenticated) /\
  exists st',
    server.main_iteration 1 Sample.create_request Sample.drawing Sample.main_start
      Sample.world
    = Some (Raise lookup_error, st', Sample.authenticated) /\
    sent_status (server.main_iteration 1 Sample.create_request Sample.drawing
                   Sample.main_start Sample.world) = None.
Proof.
  refine (create_account_request_leaves_main 1 Sample.create_request "HTTP/1.1"
            "owner_name=Jane Doe&balance=50" "Jane Doe" Sample.cookie_headers 50
            Sample.banker Sample.drawing Sample.main_start Sample.world
            Sample.authenticated 100005 [] _ _ _ _ _ _ _ _ _).
  - vm_compute. reflexivity.
  - vm_compute. reflexivity.
  - vm_compute. reflexivity.
  - vm_compute. reflexivity.
  - vm_compute. reflexivity.
  - reflexivity.
  - reflexivity.
  - reflexivity.
  - vm_compute. reflexivity.
Defined.


End FurtherExamples.

(** ** Requests from end to end *)

Section Requests.
Context `{Json} `{Bleach} `{Urllib} `{Cookies} `{Builtins} `{Pages}.

(** The turn of [main] for a request that parses and whose handler
    raises an exception that is not an [HttpErrorResponse]. *)
Lemma turn_raises (client_connection : N) (request : string) (amb : Ambient)
  (st : server.Main) (w w' : server.t) (e : PyExn) :
  server.dispatch amb request w = Some (Raise e, w') ->
  (forall err, e <> HttpError err) ->
  (server.count st + 1 < 10)%Z ->
  (server.start_time st =? server.start_time st + 900)%float = false ->
  exists st',
    server.main_iteration client_connection request amb st w
    = Some (Raise e, st', w') /\
    sent_status (server.main_iteration client_connection request amb st w) = None.
Proof.
  intros Hd He Hcount Hclock. unfold server.main_iteration.
  rewrite Hclock, lookup_insert_eq.
  destruct (Z.leb_spec 10 (server.count st + 1)) as [Hle|_]; [lia|].
  rewrite Hd. destruct e; try (eexists; split; reflexivity).
  exfalso. exact (He _ eq_refl).
Qed.

(** X21. A [POST] of [/deposit] or [/withdraw] that authenticates and
    carries well-formed fields with an amount in range gets no answer:
    [bank] raises the [NameError] of the lookup, which is caught
    neither by the handler nor by [main], so the turn sends nothing
    and the exception ends [main].  The store is untouched and the
    sessions are as [authenticate] left them. *)
Theorem transfer_request_leaves_main (client_connection : N)
  (request protocol body notes : string) (headers : gmap string string)
  (amb : Ambient) (st : server.Main) (w w1 : server.t) (user : User)
  (n : Z) (amount : float) :
  accepted_transfer amb headers body w user w1 n amount notes ->
  in_range amount = true ->
  http_utils.parse_request request
  = Ok ("POST", "/deposit", protocol, headers, body) \/
  http_utils.parse_request request
  = Ok ("POST", "/withdraw", protocol, headers, body) ->
  (server.count st + 1 < 10)%Z ->
  (server.start_time st =? server.start_time st + 900)%float = false ->
  server.db w1 = server.db w /\
  exists st',
    server.main_iteration client_connection request amb st w
    = Some (Raise lookup_error, st', w1) /\
    sent_status (server.main_iteration client_connection request amb st w) = None.
Proof.
  intros Hacc Hrange Hparse Hcount Hclock.
  destruct (transfer_handlers_raise _ _ _ _ _ _ _ _ _ Hacc Hrange) as [Hdep Hwd].
  split.
  { destruct Hacc as [Hauth _].
    pose proof (keeps_db_on_sessions
                  (http_session_manager.authenticate (time_time amb) headers) w) as Hk.
    rewrite Hauth in Hk. exact Hk. }
  apply turn_raises; [|discriminate|exact Hcount|exact Hclock].
  unfold server.dispatch.
  destruct Hparse as [Hparse|Hparse]; rewrite Hparse;
    cbn [String.eqb Ascii.eqb Bool.eqb]; [rewrite Hdep|rewrite Hwd]; reflexivity.
Qed.

(** X22. A [GET] of [/accountdetails] that authenticates and names an
    account by digits gets no answer either: [get_account] raises the
    [NameError] of the lookup, which none of the [except] clauses of
    [do_get_account_info] catches, and neither does [main].  Whether
    the number is in use, and whoever asks, the outcome is the same. *)
Theorem account_details_request_leaves_main (client_connection : N)
  (request resource protocol body a : string) (headers params : gmap string string)
  (amb : Ambient) (st : server.Main) (w w1 : server.t) (user : User) (n : Z) :
  http_utils.parse_request request = Ok ("GET", resource, protocol, headers, body) ->
  is_Some (strip_prefix "/accountdetails" resource) ->
  server.on_sessions (http_session_manager.authenticate (time_time amb) headers) w
  = (Ok user, w1) ->
  http_utils.convert_query_params_to_dictionary (snd (partition "?" resource))
  = Ok params ->
  params !! "account_num" = Some a -> isdecimal a = true ->
  int_of_str (clean a) = Some n ->
  (server.count st + 1 < 10)%Z ->
  (server.start_time st =? server.start_time st + 900)%float = false ->
  exists st',
    server.main_iteration client_connection request amb st w
    = Some (Raise lookup_error, st', w1) /\
    sent_status (server.main_iteration client_connection request amb st w) = None.
Proof.
  intros Hparse Hprefix Hauth Hq Ha Hdec Hint Hcount Hclock.
  apply turn_raises; [|discriminate|exact Hcount|exact Hclock].
  assert (Hget : server.handle_get amb resource headers w
                 = (Raise lookup_error, w1)).
  { unfold server.handle_get. rewrite (bool_decide_eq_true_2 _ Hprefix).
    unfold server.do_get_account_info. unfold bind at 1. rewrite Hauth.
    unfold bind at 1, lift_result at 1. rewrite Hq, Ha, Hdec. cbn [negb].
    unfold server.clean_int. rewrite Hint.
    unfold bind, try_except, server.on_db. cbn.
    destruct w1. reflexivity. }
  unfold server.dispatch. rewrite Hparse. cbn [String.eqb Ascii.eqb Bool.eqb].
  rewrite Hget. reflexivity.
Qed.

End Requests.

Section RequestExamples.
#[local] Existing Instance Sample.plain_json.
#[local] Existing Instance Sample.no_bleach.
#[local] Existing Instance Sample.percent.
#[local] Existing Instance Sample.one_cookie.
#[local] Existing Instance Sample.literals.
#[local] Existing Instance Sample.no_pages.

Lemma transfer_request_leaves_main_witness :
  server.db Sample.authenticated = server.db Sample.world /\
  exists st',
    server.main_iteration 1 Sample.deposit_request Sample.ambient
      Sample.main_start Sample.world
    = Some (Raise lookup_error, st', Sample.authenticated) /\
    sent_status (server.main_iteration 1 Sample.deposit_request Sample.ambient
                   Sample.main_start Sample.world) = None.
Proof.
  refine (transfer_request_leaves_main 1 Sample.deposit_request "HTTP/1.1"
            "account_num=100001&amount=50" "" Sample.cookie_headers Sample.ambient
            Sample.main_start Sample.world Sample.authenticated Sample.banker
            100001 50 _ _ (or_introl _) _ _).
  - split; [vm_compute; reflexivity|].
    exists {[ "account_num" := "100001"; "amount" := "50" ]}, "100001", "50".
    repeat split; vm_compute; reflexivity.
  - vm_compute. reflexivity.
  - vm_compute. reflexivity.
  - reflexivity.
  - vm_compute. reflexivity.
Defined.

Lemma account_details_request_leaves_main_witness :
  exists st',
    server.main_iteration 1 Sample.details_request Sample.ambient
      Sample.main_start Sample.world
    = Some (Raise lookup_error, st', Sample.authenticated) /\
    sent_status (server.main_iteration 1 Sample.details_request Sample.ambient
                   Sample.main_start Sample.world) = None.
Proof.
  refine (account_details_request_leaves_main 1 Sample.details_request
            "/accountdetails?account_num=100001" "HTTP/1.1" "" "100001"
            Sample.cookie_headers {[ "account_num" := "100001" ]}
            Sample.ambient Sample.main_start Sample.world
            Sample.authenticated Sample.banker 100001 _ _ _ _ _ _ _ _ _).
  - vm_compute. reflexivity.
  - vm_compute. eexists. reflexivity.
  - vm_compute. reflexivity.
  - vm_compute. reflexivity.
  - vm_compute. reflexivity.
  - vm_compute. reflexivity.
  - vm_compute. reflexivity.
  - reflexivity.
  - vm_compute. reflexivity.
Defined.

End RequestExamples.

(** ** Failures of the parser, and the snapshot of the sessions *)

Section ParserFailures.
Context `{Json} `{Bleach} `{Urllib} `{Cookies} `{Builtins} `{Pages}.

Lemma parse_headers_raise (header_lst : list string) (headers : gmap string string)
  (e : PyExn) :
  http_utils.parse_headers header_lst headers = Raise e ->
  exists header, In header header_lst /\
    e = HttpError (http_responses.BadRequest
                     (Some ("Malformed HTTP header:" ++ header)) []).
Proof.
  revert headers. induction header_lst as [|h l IH]; intros headers; cbn;
    [discriminate|].
  destruct (partition ":" h) as [[field_name sep] field_value].
  destruct (negb (truthy sep) || negb (truthy field_value)).
  - intros [= <-]. eauto.
  - intros Hrest. destruct (IH _ Hrest) as (header & Hin & He). eauto.
Qed.

(** X23. [parse_request] fails in five ways only: [BadRequest] for a
    request without any line, for a request line that the pattern
    rejects, for a request without an empty line, and for a header
    line without a colon or with nothing after it (the line is quoted
    in the message), and the [ValueError] of the unpacking.  A turn of
    [main] answers each of the first four with the status 400 and
    leaves the server as it was. *)
Theorem parse_request_failures (request : string) (e : PyExn) :
  http_utils.parse_request request = Raise e ->
  e = ValueError "too many values to unpack (expected 3)" \/
  exists msg,
    e = HttpError (http_responses.BadRequest (Some msg) []) /\
    ((msg = "Request is empty." /\ splitlines request = []) \/
     msg = "Invalid request line syntax" \/
     (msg = "Missing mandatory CRLF." /\ ~ In "" (splitlines request)) \/
     exists header, In header (splitlines request) /\
                    msg = "Malformed HTTP header:" ++ header) /\
    forall client_connection amb st w,
      (server.count st + 1 < 10)%Z ->
      (server.start_time st =? server.start_time st + 900)%float = false ->
      sent_status (server.main_iteration client_connection request amb st w)
      = Some 400 /\
      exists st',
        server.main_iteration client_connection request amb st w
        = Some (Ok (http_responses.RespError
                      (http_responses.BadRequest (Some msg) [])), st', w).
Proof.
  intros Hparse.
  assert (Hturn : forall msg,
    e = HttpError (http_responses.BadRequest (Some msg) []) ->
    forall client_connection amb st w,
      (server.count st + 1 < 10)%Z ->
      (server.start_time st =? server.start_time st + 900)%float = false ->
      sent_status (server.main_iteration client_connection request amb st w)
      = Some 400 /\
      exists st',
        server.main_iteration client_connection request amb st w
        = Some (Ok (http_responses.RespError
                      (http_responses.BadRequest (Some msg) [])), st', w)).
  { intros msg -> client_connection amb st w Hcount Hclock.
    unfold server.main_iteration, server.dispatch.
    rewrite Hclock, lookup_insert_eq, Hparse.
    destruct (Z.leb_spec 10 (server.count st + 1)) as [Hle|_]; [lia|].
    split; [reflexivity|eexists; reflexivity]. }
  revert Hparse Hturn. unfold http_utils.parse_request.
  destruct (splitlines request) as [|request_line rest] eqn:Hlines.
  { intros [= <-] Hturn. right. eexists. split; [reflexivity|].
    split; [left; auto|]. apply Hturn. reflexivity. }
  destruct (http_utils.VALID_REQUEST_LINE_PATTERN request_line); cbn [negb].
  2: { intros [= <-] Hturn. right. eexists. split; [reflexivity|].
       split; [right; left; reflexivity|]. apply Hturn. reflexivity. }
  destruct (split_on " " request_line) as [|m [|raw [|pr [|]]]];
    try (intros [= <-] _; left; reflexivity).
  destruct (index_empty (request_line :: rest)) as [crlf|] eqn:Hidx.
  - destruct (http_utils.parse_headers _ ∅) as [hs|e'] eqn:Hhs; [discriminate|].
    intros [= <-] Hturn.
    destruct (parse_headers_raise _ _ _ Hhs) as (header & Hin & ->).
    right. eexists. split; [reflexivity|]. split; [|apply Hturn; reflexivity].
    right. right. right. exists header. split; [|reflexivity].
    right. cbn [skipn] in Hin. rewrite <- (firstn_skipn (crlf - 1) rest).
    apply in_or_app. left. exact Hin.
  - intros [= <-] Hturn. right. eexists. split; [reflexivity|].
    split; [|apply Hturn; reflexivity].
    right. right. left. split; [reflexivity|].
    clear -Hidx. revert Hidx. generalize (request_line :: rest) as lines.
    induction lines as [|l lines IH]; cbn; [tauto|].
    destruct (String.eqb_spec l "") as [->|Hl]; [discriminate|].
    destruct (index_empty lines); [discriminate|].
    intros _ [Heq|Hin]; [congruence|]. exact (IH eq_refl Hin).
Qed.

End ParserFailures.

Section Snapshot.
Context `{Cookies}.

(** X24. The snapshot of the sessions is written by every call of the
    session manager that returns: after [create_session],
    [delete_session] and a successful [authenticate] the file holds the
    dictionary, so that a manager started from it ([__init__]) has the
    same sessions.  When [authenticate] removes an expired session it
    raises without writing: the file is as before, and a manager
    started from a file that was up to date still has the expired
    session. *)
Theorem snapshot_written_on_return (self self1 : http_session_manager.t)
  (headers : gmap string string) (now : float) :
  (forall session_id user cookie,
     http_session_manager.create_session session_id now user headers self
     = (Ok cookie, self1) ->
     http_session_manager._sessions
       (http_session_manager.init (http_session_manager.session_file self1))
     = http_session_manager._sessions self1) /\
  (forall cookie,
     http_session_manager.delete_session headers self = (Ok cookie, self1) ->
     http_session_manager._sessions
       (http_session_manager.init (http_session_manager.session_file self1))
     = http_session_manager._sessions self1) /\
  (forall user,
     http_session_manager.authenticate now headers self = (Ok user, self1) ->
     http_session_manager._sessions
       (http_session_manager.init (http_session_manager.session_file self1))
     = http_session_manager._sessions self1) /\
  (forall raw cookie m session,
     headers !! "Cookie" = Some raw -> SimpleCookie_load raw = Ok cookie ->
     cookie !! http_session_manager._SESSION_ID = Some m ->
     http_session_manager._sessions self !! value m = Some session ->
     (http_session_manager.expiration session <? now)%float = true ->
     http_session_manager.session_file self
     = Some (http_session_manager._sessions self) ->
     let after := snd (http_session_manager.authenticate now headers self) in
     http_session_manager._sessions after !! value m = None /\
     http_session_manager.session_file after
     = http_session_manager.session_file self /\
     http_session_manager._sessions
       (http_session_manager.init (http_session_manager.session_file after))
     !! value m = Some session).
Proof.
  split; [|split; [|split]].
  - intros session_id user cookie.
    unfold http_session_manager.create_session, bind, lift_result, ret,
      http_session_manager._write_sessions.
    destruct (headers !! "Cookie") as [raw|].
    + destruct (SimpleCookie_load raw) as [old|e]; [|discriminate].
      destruct (http_session_manager.known_session old self);
        intros [= _ <-]; reflexivity.
    + intros [= _ <-]. reflexivity.
  - intros cookie.
    unfold http_session_manager.delete_session, bind, lift_result, ret, raise,
      http_session_manager._write_sessions.
    destruct (headers !! "Cookie") as [raw|]; [|discriminate].
    destruct (SimpleCookie_load raw) as [old|e]; [|discriminate].
    destruct (http_session_manager.known_session old self);
      intros [= _ <-]; reflexivity.
  - intros user.
    unfold http_session_manager.authenticate, bind, lift_result, ret, raise,
      http_session_manager._write_sessions.
    destruct (headers !! "Cookie") as [raw|]; [|discriminate].
    destruct (SimpleCookie_load raw) as [old|e]; [|discriminate].
    destruct (old !! http_session_manager._SESSION_ID) as [m|]; [|discriminate].
    destruct (http_session_manager._sessions self !! value m) as [session|];
      [|discriminate].
    destruct (http_session_manager.expiration session <? now)%float; [discriminate|].
    intros [= _ <-]. reflexivity.
  - intros raw cookie m session Hraw Hload Hm Hs Hexp Hfile after. subst after.
    unfold http_session_manager.authenticate, bind, lift_result.
    rewrite Hraw, Hload, Hm, Hs, Hexp. cbn.
    split; [apply lookup_delete_eq|]. split; [reflexivity|].
    rewrite Hfile. cbn. exact Hs.
Qed.

End Snapshot.

Section ParserFailuresExample.
#[local] Existing Instance Sample.plain_json.
#[local] Existing Instance Sample.no_bleach.
#[local] Existing Instance Sample.percent.
#[local] Existing Instance Sample.one_cookie.
#[local] Existing Instance Sample.literals.
#[local] Existing Instance Sample.no_pages.

Lemma parse_request_failures_witness :
  HttpError (http_responses.BadRequest (Some "Request is empty.") [])
  = ValueError "too many values to unpack (expected 3)" \/
  exists msg,
    HttpError (http_responses.BadRequest (Some "Request is empty.") [])
    = HttpError (http_responses.BadRequest (Some msg) []) /\
    ((msg = "Request is empty." /\ splitlines "" = []) \/
     msg = "Invalid request line syntax" \/
     (msg = "Missing mandatory CRLF." /\ ~ In "" (splitlines "")) \/
     exists header, In header (splitlines "") /\
                    msg = "Malformed HTTP header:" ++ header) /\
    forall client_connection amb st w,
      (server.count st + 1 < 10)%Z ->
      (server.start_time st =? server.start_time st + 900)%float = false ->
      sent_status (server.main_iteration client_connection "" amb st w)
      = Some 400 /\
      exists st',
        server.main_iteration client_connection "" amb st w
        = Some (Ok (http_responses.RespError
                      (http_responses.BadRequest (Some msg) [])), st', w).
Proof.
  refine (parse_request_failures ""
            (HttpError (http_responses.BadRequest (Some "Request is empty.") [])) _).
  reflexivity.
Defined.

End ParserFailuresExample.
